(** * Restaurant directory API: request handlers and router

    A shallow embedding of the restaurant controller (the nine exported
    handlers) and of the restaurant router.  Handlers are programs in a small
    free monad whose effects are the calls the JavaScript code makes on its
    collaborators: awaited calls on the [Restaurant] model, calls whose
    promise is dropped, [next(err)] and [res.status(s).json(body)].  Running a
    handler against an answer function for the model layer yields the list of
    externally visible events, in program order.

    Numbers are exact rationals with a [NaN]; rounding to binary64 and the
    two infinities are outside the model. *)

From Stdlib Require Import String Ascii List ZArith QArith Qabs Qround Bool Lia.
From Stdlib Require Import Sorted Permutation.
From Stdlib Require OrderedTypeEx.
Import ListNotations.
Local Close Scope Q_scope.
Local Open Scope string_scope.
Local Open Scope list_scope.

(* ================================================================== *)
(** ** Host-language values *)

(** A JavaScript number: a rational or [NaN]. *)
Inductive number : Type :=
| NaN
| Num (q : Q).

(** [a * b]. *)
Definition num_mul (a b : number) : number :=
  match a, b with
  | Num x, Num y => Num (x * y)
  | _, _ => NaN
  end.

(** [a / b].  Every divisor in the controller is a non-zero literal; a zero
    divisor (an infinity or [NaN] in JavaScript) is mapped to [NaN]. *)
Definition num_div (a b : number) : number :=
  match a, b with
  | Num x, Num y => if Qeq_bool y 0 then NaN else Num (x / y)
  | _, _ => NaN
  end.

(** [a + b]. *)
Definition num_add (a b : number) : number :=
  match a, b with
  | Num x, Num y => Num (x + y)
  | _, _ => NaN
  end.

(** JSON-like values: what documents, request bodies and response bodies
    are made of. *)
#[local] Set Warnings "-register-all".
Inductive value : Type :=
| VUndef
| VNull
| VBool (b : bool)
| VNum (n : number)
| VStr (s : string)
| VArr (items : list value)
| VObj (fields : list (string * value)).

(** A document (a JavaScript object): fields in insertion order. *)
Definition doc : Type := list (string * value).

Fixpoint field (name : string) (d : doc) : option value :=
  match d with
  | [] => None
  | (k, v) :: d' => if String.eqb k name then Some v else field name d'
  end.

(** [d[name] = v]: overwrite in place, or append a new field. *)
Fixpoint set_field (name : string) (v : value) (d : doc) : doc :=
  match d with
  | [] => [(name, v)]
  | (k, w) :: d' =>
      if String.eqb k name then (k, v) :: d' else (k, w) :: set_field name v d'
  end.

(** A variable holding a string or [undefined] (route parameters and the
    results of destructuring) is an [option string]. *)
Definition js (x : option string) : value :=
  match x with
  | Some s => VStr s
  | None => VUndef
  end.

(** [!!x] for a string or [undefined]: only [undefined] and the empty string are falsy. *)
Definition truthy (x : option string) : bool :=
  match x with
  | None => false
  | Some EmptyString => false
  | Some (String _ _) => true
  end.

(** [x === s] and [x !== s] against a string literal. *)
Definition strict_eq (x : option string) (s : string) : bool :=
  match x with
  | Some t => String.eqb t s
  | None => false
  end.

Definition strict_neq (x : option string) (s : string) : bool :=
  negb (strict_eq x s).

(** [${x}] inside a template literal. *)
Definition template (x : option string) : string :=
  match x with
  | Some s => s
  | None => "undefined"
  end.

(** [s.split(sep)] for a one-character separator: never the empty list. *)
Fixpoint split (sep : ascii) (s : string) : list string :=
  match s with
  | EmptyString => [EmptyString]
  | String c s' =>
      if Ascii.eqb c sep then EmptyString :: split sep s'
      else match split sep s' with
           | [] => [String c EmptyString]
           | x :: xs => String c x :: xs
           end
  end.

(** ** Collaborators that are not source of this repository

    The string-to-number conversion of the host language, the spherical
    distance the database engine computes from its index, and the engine's
    rendering of a non-string scalar as a string are taken as given. *)
Class Externals : Type := {
  (** [ToNumber] applied to a string. *)
  StringToNumber : string -> number;
  (** The engine's distance, in meters, from a GeoJSON point to the indexed
      location of a document; [None] when the document has no such location
      (the 2dsphere index then leaves it out). *)
  geoDistance : value -> doc -> option Q;
  (** The engine's string rendering of a value that is neither a string nor
      null/missing; [None] when the engine raises a conversion error. *)
  bsonToString : value -> option string
}.

(** [ToNumber] for a string or [undefined]. *)
Definition ToNumber `{Externals} (x : option string) : number :=
  match x with
  | Some s => StringToNumber s
  | None => NaN
  end.

(* ================================================================== *)
(** ** Errors *)

(** Values passed to [next].  [AppError] is built by the controller as
    [new AppError(message, statusCode)]; the others come from the host
    language and from the model layer. *)
Inductive error : Type :=
| AppError (message : string) (statusCode : Z)
| TypeError (message : string)
| DriverError (message : string).

(** The outcome of a promise. *)
Inductive result (A : Type) : Type :=
| Resolved (a : A)
| Rejected (e : error).
Arguments Resolved {A} a.
Arguments Rejected {A} e.

(* ================================================================== *)
(** ** The model layer's query language *)

(** Options of [.populate({ path, select })]. *)
Record populateOpts : Type := { path : string; select : string }.

(** Options of [findByIdAndUpdate]: [{ new, runValidators }]. *)
Record updateOpts : Type := { new : bool; runValidators : bool }.

(** Query conditions: [{ <field>: { $geoWithin: { $centerSphere: [[x, y], radius] } } }]. *)
Inductive conditions : Type :=
| GeoWithinCenterSphere (fld : string) (center : value * value) (radius : number).

(** Operands of accumulators: a literal or a field path ['$name']. *)
Inductive operand : Type :=
| Const (q : Q)
| FieldPath (name : string).

(** Group keys: [{ $toUpper: '$name' }]. *)
Inductive keyExpr : Type :=
| ToUpper (name : string).

Inductive accumulator : Type :=
| Sum (x : operand)
| Avg (x : operand).

(** Aggregation stages used by the controller.  [Project ["a"; "b"]] is
    [{ $project: { a: 1, b: 1 } }]; [SortBy [("a", -1)]] is
    [{ $sort: { a: -1 } }]. *)
Inductive stage : Type :=
| GeoNear (near : value) (distanceField : string) (distanceMultiplier : number)
| Project (include : list string)
| Unwind (name : string)
| Group (_id : keyExpr) (accs : list (string * accumulator))
| SortBy (keys : list (string * Z)).

Module Restaurant.

(** Calls on the [Restaurant] model and on its documents. *)
Inductive call : Type :=
| findById (id : option string) (populate : option populateOpts)
| create (body : value)
| findByIdAndUpdate (id : option string) (body : value) (opts : updateOpts)
| find (f : conditions)
| aggregate (pipeline : list stage)
| remove (d : doc).

(** What the promise of a call resolves to; [None] is [null]. *)
Definition reply (c : call) : Type :=
  match c with
  | findById _ _ => option doc
  | create _ => doc
  | findByIdAndUpdate _ _ _ => option doc
  | find _ => list doc
  | aggregate _ => list doc
  | remove _ => doc
  end.

End Restaurant.

(* ================================================================== *)
(** ** Handler programs *)

Inductive effect : Type :=
| EAwait (c : Restaurant.call)
| EDetached (c : Restaurant.call)
| ENext (e : error)
| EJson (status : Z) (body : value).

Definition answer (e : effect) : Type :=
  match e with
  | EAwait c => Restaurant.reply c
  | _ => unit
  end.

Inductive prog (A : Type) : Type :=
| Ret (a : A)
| Throw (e : error)
| Do (e : effect) (k : answer e -> prog A).
Arguments Ret {A} a.
Arguments Throw {A} e.
Arguments Do {A} e k.

Fixpoint bind {A B : Type} (p : prog A) (f : A -> prog B) : prog B :=
  match p with
  | Ret a => f a
  | Throw e => Throw e
  | Do e k => Do e (fun x => bind (k x) f)
  end.

Declare Scope prog_scope.
Delimit Scope prog_scope with prog.
Bind Scope prog_scope with prog.
Notation "x <- p ;; q" := (bind p (fun x => q))
  (at level 61, p at next level, right associativity) : prog_scope.
Notation "p ;; q" := (bind p (fun _ => q))
  (at level 61, right associativity) : prog_scope.
Local Open Scope prog_scope.

(** [await c]. *)
Definition await (c : Restaurant.call) : prog (Restaurant.reply c) :=
  Do (EAwait c) Ret.

(** A call whose promise is neither awaited nor returned. *)
Definition detached (c : Restaurant.call) : prog unit :=
  Do (EDetached c) Ret.

(** [next(err)]: control comes back to the caller. *)
Definition next (e : error) : prog unit :=
  Do (ENext e) Ret.

(** [res.status(status).json(body)]. *)
Definition res_status_json (status : Z) (body : value) : prog unit :=
  Do (EJson status body) Ret.

(** [if (b) { p }] with no [else] and no [return]. *)
Definition when (b : bool) (p : prog unit) : prog unit :=
  if b then p else Ret tt.

(** The request context a handler reads: [req.params], [req.body] and the
    [res.advancedQuery] attached upstream. *)
Record Request : Type := {
  params : list (string * string);
  body : value;
  advancedQuery : value
}.

Fixpoint lookup (name : string) (ps : list (string * string)) : option string :=
  match ps with
  | [] => None
  | (k, v) :: ps' => if String.eqb k name then Some v else lookup name ps'
  end.

(** [req.params.<name>]. *)
Definition param (req : Request) (name : string) : option string :=
  lookup name (params req).

(** ** Running a handler *)

(** What the outside world observes: the calls made, in program order.
    What the error-handling middleware does with a forwarded error, and
    whether a response can still be written after it, is not part of the
    controller and not modelled. *)
Inductive event : Type :=
| Called (c : Restaurant.call)
| Forwarded (e : error)
| Responded (status : Z) (body : value).

(** The model layer as seen by one request: how each call settles. *)
Definition oracle : Type := forall c : Restaurant.call, result (Restaurant.reply c).

Fixpoint run {A : Type} (o : oracle) (p : prog A) : list event * result A :=
  match p with
  | Ret a => ([], Resolved a)
  | Throw e => ([], Rejected e)
  | Do e k =>
      match e as e0 return (answer e0 -> prog A) -> list event * result A with
      | EAwait c => fun k =>
          match o c with
          | Resolved r => let (l, x) := run o (k r) in (Called c :: l, x)
          | Rejected err => ([Called c], Rejected err)
          end
      | EDetached c => fun k =>
          let (l, x) := run o (k tt) in (Called c :: l, x)
      | ENext err => fun k =>
          let (l, x) := run o (k tt) in (Forwarded err :: l, x)
      | EJson s b => fun k =>
          let (l, x) := run o (k tt) in (Responded s b :: l, x)
      end k
  end.

Definition handler : Type := Request -> oracle -> list event.

(** Modelled from the spec: [asyncHandler] (middleware/asyncHandler is not
    part of the available source).  It runs the async function and, when the
    returned promise rejects, passes the error to [next]; handlers themselves
    never catch. *)
Definition asyncHandler (fn : Request -> prog unit) : handler :=
  fun req o =>
    let (l, x) := run o (fn req) in
    match x with
    | Resolved _ => l
    | Rejected e => l ++ [Forwarded e]
    end.

(* ================================================================== *)
(** ** The controller *)

Section Controller.

Context `{Externals}.

Definition success (rest : doc) : value :=
  VObj (("status", VStr "success") :: rest).

Definition not_found_message (id : option string) : string :=
  "A restaurant with the id of '" ++ template id ++ "' is not found.".

(** [GET /api/restaurants] *)
Definition getAllRestaurants : handler := asyncHandler (fun req =>
  res_status_json 200 (advancedQuery req)).

(** [GET /api/restaurants/:id] *)
Definition getRestaurant : handler := asyncHandler (fun req =>
  restaurant <- await (Restaurant.findById (param req "id")
                         (Some {| path := "reviews"; select := "review rating" |})) ;;
  match restaurant with
  | None =>
      (* return *) next (AppError (not_found_message (param req "id")) 404)
  | Some restaurant =>
      res_status_json 200 (success [("data", VObj restaurant)])
  end).

(** [POST /api/restaurants] *)
Definition createRestaurant : handler := asyncHandler (fun req =>
  restaurant <- await (Restaurant.create (body req)) ;;
  res_status_json 201 (success [("data", VObj restaurant)])).

(** [PATCH /api/restaurants/:id] *)
Definition updateRestaurant : handler := asyncHandler (fun req =>
  restaurant <- await (Restaurant.findByIdAndUpdate (param req "id") (body req)
                         {| new := true; runValidators := true |}) ;;
  match restaurant with
  | None =>
      (* return *) next (AppError (not_found_message (param req "id")) 404)
  | Some restaurant =>
      res_status_json 200 (success [("data", VObj restaurant)])
  end).

(** [DELETE /api/restaurants/:id] *)
Definition deleteRestaurant : handler := asyncHandler (fun req =>
  restaurant <- await (Restaurant.findById (param req "id") None) ;;
  match restaurant with
  | None =>
      (* return *) next (AppError (not_found_message (param req "id")) 404)
  | Some restaurant =>
      detached (Restaurant.remove restaurant) ;;
      res_status_json 200 (success [("data", VObj restaurant)])
  end).

Definition latlng_message : string :=
  "Please provide latitude and longitude of a point".

Definition unit_message : string :=
  "Please provide unit in km(kilometres) or mi(miles)".

(** [array.length] as a number. *)
Definition length_of {A : Type} (l : list A) : value :=
  VNum (Num (inject_Z (Z.of_nat (length l)))).

(** [(unit === 'km') ? distance / 6378.16 : distance / 3963.2] *)
Definition radius_of (unit distance : option string) : number :=
  if strict_eq unit "km"
  then num_div (ToNumber distance) (Num 6378.16)
  else num_div (ToNumber distance) (Num 3963.2).

(** [{ location: { $geoWithin: { $centerSphere: [[lng, lat], radius] } } }] *)
Definition within_filter (lng lat : option string) (radius : number) : conditions :=
  GeoWithinCenterSphere "location" (js lng, js lat) radius.

(** [GET /api/restaurants/within/:distance/:unit/near/:latlng] *)
Definition getRestaurantsWithin : handler := asyncHandler (fun req =>
  let distance := param req "distance" in
  let unit := param req "unit" in
  match param req "latlng" with
  | None => Throw (TypeError "Cannot read property 'split' of undefined")
  | Some latlng =>
      let parts := split "," latlng in
      let lat := nth_error parts 0 in
      let lng := nth_error parts 1 in
      when (negb (truthy lat) || negb (truthy lng))
        (next (AppError latlng_message 400)) ;;
      when (strict_neq unit "km" && strict_neq unit "mi")
        (next (AppError unit_message 400)) ;;
      let radius := radius_of unit distance in
      restaurants <- await (Restaurant.find (within_filter lng lat radius)) ;;
      res_status_json 200
        (success [("count", length_of restaurants);
                  ("data", VArr (map VObj restaurants))])
  end).

(** [(unit === 'km') ? 0.001 : 0.000621371] *)
Definition multiplier_of (unit : option string) : number :=
  if strict_eq unit "km" then Num 0.001 else Num 0.000621371.

(** [{ type: 'Point', coordinates: [lng * 1, lat * 1] }] *)
Definition near_point (lng lat : option string) : value :=
  VObj [("type", VStr "Point");
        ("coordinates", VArr [VNum (num_mul (ToNumber lng) (Num 1));
                              VNum (num_mul (ToNumber lat) (Num 1))])].

Definition distances_pipeline (lng lat unit : option string) : list stage :=
  [ GeoNear (near_point lng lat) "distance" (multiplier_of unit);
    Project ["name"; "distance"] ].

(** [GET /api/restaurants/distances-from/:latlng/unit/:unit] *)
Definition getDistances : handler := asyncHandler (fun req =>
  let unit := param req "unit" in
  match param req "latlng" with
  | None => Throw (TypeError "Cannot read property 'split' of undefined")
  | Some latlng =>
      let parts := split "," latlng in
      let lat := nth_error parts 0 in
      let lng := nth_error parts 1 in
      when (negb (truthy lat) || negb (truthy lng))
        (next (AppError latlng_message 400)) ;;
      when (strict_neq unit "km" && strict_neq unit "mi")
        (next (AppError unit_message 400)) ;;
      distances <- await (Restaurant.aggregate (distances_pipeline lng lat unit)) ;;
      res_status_json 200 (success [("data", VArr (map VObj distances))])
  end).

Definition stats_accumulators : list (string * accumulator) :=
  [ ("numRestaurants", Sum (Const 1));
    ("numRatings", Sum (FieldPath "ratingsQuantity"));
    ("avgRating", Avg (FieldPath "ratingsAverage")) ].

Definition stats_sort : list (string * Z) :=
  [ ("numRestaurants", (-1)%Z); ("numRatings", (-1)%Z); ("avgRating", (-1)%Z) ].

Definition suburb_pipeline : list stage :=
  [ Group (ToUpper "suburb") stats_accumulators;
    SortBy stats_sort ].

Definition cuisine_pipeline : list stage :=
  [ Unwind "cuisine";
    Group (ToUpper "cuisine") stats_accumulators;
    SortBy stats_sort ].

(** [GET /api/restaurants/stats-by-suburb] *)
Definition getStatsBySuburb : handler := asyncHandler (fun req =>
  stats <- await (Restaurant.aggregate suburb_pipeline) ;;
  res_status_json 200 (success [("data", VArr (map VObj stats))])).

(** [GET /api/restaurants/stats-by-cuisine] *)
Definition getStatsByCuisine : handler := asyncHandler (fun req =>
  stats <- await (Restaurant.aggregate cuisine_pipeline) ;;
  res_status_json 200 (success [("data", VArr (map VObj stats))])).

End Controller.

(* ================================================================== *)
(** ** Reference semantics of the aggregation stages

    The aggregation engine is an external collaborator.  What follows is the
    documented meaning of the five stages the controller builds, over a
    collection given as a list of documents: what [Restaurant.aggregate]
    resolves to when the engine accepts the pipeline.  Whether it accepts
    one (finite coordinates in range, a geospatial index on the field) is
    left to the model layer's answer and not decided here.  The order in
    which [$group] emits its groups is unspecified by the engine; the model
    emits them in order of first appearance. *)

Module Engine.

Section Stages.

Context `{Externals}.

Definition upper_ascii (c : ascii) : ascii :=
  let n := nat_of_ascii c in
  if (97 <=? n)%nat && (n <=? 122)%nat then ascii_of_nat (n - 32) else c.

(** [$toUpper] on a string (ASCII letters only, as in the engine). *)
Fixpoint toUpper (s : string) : string :=
  match s with
  | EmptyString => EmptyString
  | String c s' => String (upper_ascii c) (toUpper s')
  end.

(** The group key of a document: null and missing fields give the empty
    string. *)
Definition eval_key (k : keyExpr) (d : doc) : result string :=
  match k with
  | ToUpper name =>
      match field name d with
      | None | Some VNull | Some VUndef => Resolved EmptyString
      | Some (VStr s) => Resolved (toUpper s)
      | Some v =>
          match bsonToString v with
          | Some s => Resolved (toUpper s)
          | None => Rejected (DriverError "can't convert to String")
          end
      end
  end.

(** The numeric value of an operand on a document; [None] when it is not a
    number (accumulators skip such documents). *)
Definition eval_operand (x : operand) (d : doc) : option number :=
  match x with
  | Const q => Some (Num q)
  | FieldPath name =>
      match field name d with
      | Some (VNum n) => Some n
      | _ => None
      end
  end.

Fixpoint numeric_values (x : operand) (ds : list doc) : list number :=
  match ds with
  | [] => []
  | d :: ds' =>
      match eval_operand x d with
      | Some n => n :: numeric_values x ds'
      | None => numeric_values x ds'
      end
  end.

Definition total (ns : list number) : number :=
  fold_right num_add (Num 0) ns.

(** [$sum] and [$avg] over the documents of one group; [$avg] of no numeric
    value is null. *)
Definition eval_acc (a : accumulator) (ds : list doc) : value :=
  match a with
  | Sum x => VNum (total (numeric_values x ds))
  | Avg x =>
      match numeric_values x ds with
      | [] => VNull
      | ns => VNum (num_div (total ns) (Num (inject_Z (Z.of_nat (length ns)))))
      end
  end.

(** Stable insertion sort. *)
Fixpoint insert_by {A : Type} (le : A -> A -> bool) (x : A) (l : list A) : list A :=
  match l with
  | [] => [x]
  | y :: l' => if le x y then x :: y :: l' else y :: insert_by le x l'
  end.

Definition sort_by {A : Type} (le : A -> A -> bool) (l : list A) : list A :=
  fold_right (insert_by le) [] l.

(** [$geoNear]: documents with an indexed location, nearest first, each with
    its distance in meters times the multiplier stored under
    [distanceField]. *)
Definition located (near : value) (docs : list doc) : list (Q * doc) :=
  flat_map (fun d => match geoDistance near d with
                     | Some m => [(m, d)]
                     | None => []
                     end) docs.

Definition nearer (a b : Q * doc) : bool := Qle_bool (fst a) (fst b).

Definition geoNear (near : value) (distanceField : string) (mult : number)
    (docs : list doc) : list doc :=
  map (fun md => set_field distanceField (VNum (num_mul (Num (fst md)) mult)) (snd md))
      (sort_by nearer (located near docs)).

(** [$project] with inclusions only: the listed fields and [_id]. *)
Definition project (include : list string) (d : doc) : doc :=
  filter (fun kv => String.eqb (fst kv) "_id"
                    || existsb (String.eqb (fst kv)) include) d.

(** [$unwind]: one output document per array element; documents whose field
    is missing, null or an empty array give none; any other value counts as
    a one-element array. *)
Definition unwind (name : string) (d : doc) : list doc :=
  match field name d with
  | None | Some VNull | Some VUndef => []
  | Some (VArr items) => map (fun v => set_field name v d) items
  | Some _ => [d]
  end.

(** [$group]: documents partitioned by key. *)
Fixpoint keyed (k : keyExpr) (docs : list doc) : result (list (string * doc)) :=
  match docs with
  | [] => Resolved []
  | d :: docs' =>
      match eval_key k d with
      | Rejected e => Rejected e
      | Resolved key =>
          match keyed k docs' with
          | Rejected e => Rejected e
          | Resolved rest => Resolved ((key, d) :: rest)
          end
      end
  end.

Fixpoint add_to_group (key : string) (d : doc) (gs : list (string * list doc))
    : list (string * list doc) :=
  match gs with
  | [] => [(key, [d])]
  | (k, ds) :: gs' =>
      if String.eqb k key then (k, ds ++ [d]) :: gs'
      else (k, ds) :: add_to_group key d gs'
  end.

Definition group_by (kds : list (string * doc)) : list (string * list doc) :=
  fold_left (fun gs kd => add_to_group (fst kd) (snd kd) gs) kds [].

Definition group_row (accs : list (string * accumulator)) (g : string * list doc) : doc :=
  ("_id", VStr (fst g)) :: map (fun na => (fst na, eval_acc (snd na) (snd g))) accs.

Definition group (k : keyExpr) (accs : list (string * accumulator)) (docs : list doc)
    : result (list doc) :=
  match keyed k docs with
  | Rejected e => Rejected e
  | Resolved kds => Resolved (map (group_row accs) (group_by kds))
  end.

(** [$sort]: the engine's order on values, restricted to what documents of
    this model hold: null and missing first, then numbers ([NaN] least),
    then strings, then the other types (not ordered among themselves). *)
Definition number_compare (a b : number) : comparison :=
  match a, b with
  | NaN, NaN => Eq
  | NaN, Num _ => Lt
  | Num _, NaN => Gt
  | Num x, Num y => (x ?= y)%Q
  end.

Definition bson_rank (v : option value) : nat :=
  match v with
  | None | Some VUndef | Some VNull => 0
  | Some (VNum _) => 1
  | Some (VStr _) => 2
  | Some (VObj _) => 3
  | Some (VArr _) => 4
  | Some (VBool _) => 5
  end.

Definition value_compare (a b : option value) : comparison :=
  match a, b with
  | Some (VNum x), Some (VNum y) => number_compare x y
  | Some (VStr x), Some (VStr y) => String.compare x y
  | _, _ => Nat.compare (bson_rank a) (bson_rank b)
  end.

Definition key_compare (k : string * Z) (a b : doc) : comparison :=
  let c := value_compare (field (fst k) a) (field (fst k) b) in
  if (snd k <? 0)%Z then CompOpp c else c.

Fixpoint sort_compare (keys : list (string * Z)) (a b : doc) : comparison :=
  match keys with
  | [] => Eq
  | k :: keys' =>
      match key_compare k a b with
      | Eq => sort_compare keys' a b
      | c => c
      end
  end.

Definition sort_le (keys : list (string * Z)) (a b : doc) : bool :=
  match sort_compare keys a b with
  | Gt => false
  | _ => true
  end.

Definition run_stage (s : stage) (docs : list doc) : result (list doc) :=
  match s with
  | GeoNear near fld mult => Resolved (geoNear near fld mult docs)
  | Project include => Resolved (map (project include) docs)
  | Unwind name => Resolved (flat_map (unwind name) docs)
  | Group k accs => group k accs docs
  | SortBy keys => Resolved (sort_by (sort_le keys) docs)
  end.

Fixpoint aggregate (pipeline : list stage) (docs : list doc) : result (list doc) :=
  match pipeline with
  | [] => Resolved docs
  | s :: pipeline' =>
      match run_stage s docs with
      | Rejected e => Rejected e
      | Resolved docs' => aggregate pipeline' docs'
      end
  end.

End Stages.

End Engine.

(** The model layer answers aggregations over the collection [coll] as the
    engine does. *)
Definition aggregates_over `{Externals} (o : oracle) (coll : list doc) : Prop :=
  forall p, o (Restaurant.aggregate p) = Engine.aggregate p coll.

(* ================================================================== *)
(** ** The router *)

Inductive method : Type := GET | POST | PATCH | DELETE.

Definition method_eqb (a b : method) : bool :=
  match a, b with
  | GET, GET | POST, POST | PATCH, PATCH | DELETE, DELETE => true
  | _, _ => false
  end.

(** The functions the controller exports. *)
Inductive action : Type :=
| GetAllRestaurants
| GetRestaurant
| CreateRestaurant
| UpdateRestaurant
| DeleteRestaurant
| GetRestaurantsWithin
| GetDistances
| GetStatsBySuburb
| GetStatsByCuisine.

Definition action_eqb (a b : action) : bool :=
  match a, b with
  | GetAllRestaurants, GetAllRestaurants
  | GetRestaurant, GetRestaurant
  | CreateRestaurant, CreateRestaurant
  | UpdateRestaurant, UpdateRestaurant
  | DeleteRestaurant, DeleteRestaurant
  | GetRestaurantsWithin, GetRestaurantsWithin
  | GetDistances, GetDistances
  | GetStatsBySuburb, GetStatsBySuburb
  | GetStatsByCuisine, GetStatsByCuisine => true
  | _, _ => false
  end.

Definition handler_of `{Externals} (a : action) : handler :=
  match a with
  | GetAllRestaurants => getAllRestaurants
  | GetRestaurant => getRestaurant
  | CreateRestaurant => createRestaurant
  | UpdateRestaurant => updateRestaurant
  | DeleteRestaurant => deleteRestaurant
  | GetRestaurantsWithin => getRestaurantsWithin
  | GetDistances => getDistances
  | GetStatsBySuburb => getStatsBySuburb
  | GetStatsByCuisine => getStatsByCuisine
  end.

(** What a route can be bound to: the external middleware, the nested review
    router, or a controller function. *)
Inductive middleware : Type :=
| advancedQuery_of (model : string)
| protect
| restrictTo (roles : list string)
| reviewRouter
| controller (a : action).

(** A path pattern, one piece per ['/']-separated segment: a literal or a
    named parameter [':name']. *)
Inductive piece : Type :=
| Lit (s : string)
| Par (name : string).

(** Entries of the router's stack: [router.use(path, fn)] matches a path
    prefix; a route matches a whole path and binds handler chains per
    method. *)
Inductive layer : Type :=
| Use (pattern : list piece) (target : middleware)
| Route (pattern : list piece) (bindings : list (method * list middleware)).

(** [router.get(path, ...fns)]. *)
Definition get (pattern : list piece) (fns : list middleware) : layer :=
  Route pattern [(GET, fns)].

Definition router : list layer :=
  [ Use [Par "restaurantId"; Lit "reviews"] reviewRouter;
    get [Lit "within"; Par "distance"; Par "unit"; Lit "near"; Par "latlng"]
        [controller GetRestaurantsWithin];
    get [Lit "distances-from"; Par "latlng"; Lit "unit"; Par "unit"]
        [controller GetDistances];
    Route []
      [ (GET, [advancedQuery_of "Restaurant"; controller GetAllRestaurants]);
        (POST, [protect; restrictTo ["staff"; "owner"; "admin"];
                controller CreateRestaurant]) ];
    Route [Par "id"]
      [ (GET, [controller GetRestaurant]);
        (PATCH, [protect; restrictTo ["staff"; "owner"; "admin"];
                 controller UpdateRestaurant]);
        (DELETE, [protect; restrictTo ["owner"; "admin"];
                  controller DeleteRestaurant]) ] ].

(** *** Path matching (the web framework's defaults: literals compare
    without regard to ASCII case, a parameter takes one non-empty segment,
    one trailing slash is allowed) *)

Definition lower_ascii (c : ascii) : ascii :=
  let n := nat_of_ascii c in
  if (65 <=? n)%nat && (n <=? 90)%nat then ascii_of_nat (n + 32) else c.

Fixpoint toLower (s : string) : string :=
  match s with
  | EmptyString => EmptyString
  | String c s' => String (lower_ascii c) (toLower s')
  end.

Definition match_piece (p : piece) (seg : string) : option (list (string * string)) :=
  match p with
  | Lit s => if String.eqb (toLower s) (toLower seg) then Some [] else None
  | Par name =>
      match seg with
      | EmptyString => None
      | _ => Some [(name, seg)]
      end
  end.

(** Matches the pattern against the leading segments; gives the bound
    parameters and the segments left over. *)
Fixpoint match_prefix (pat : list piece) (segs : list string)
    : option (list (string * string) * list string) :=
  match pat, segs with
  | [], _ => Some ([], segs)
  | _ :: _, [] => None
  | p :: pat', seg :: segs' =>
      match match_piece p seg with
      | None => None
      | Some bound =>
          match match_prefix pat' segs' with
          | None => None
          | Some (more, rest) => Some (bound ++ more, rest)
          end
      end
  end.

Definition match_whole (pat : list piece) (segs : list string)
    : option (list (string * string)) :=
  match match_prefix pat segs with
  | Some (bound, []) => Some bound
  | _ => None
  end.

Fixpoint binding (m : method) (bs : list (method * list middleware))
    : option (list middleware) :=
  match bs with
  | [] => None
  | (m', fns) :: bs' => if method_eqb m' m then Some fns else binding m bs'
  end.

(** The first layer of the stack that takes the request, with the bound
    route parameters. *)
Fixpoint dispatch (stack : list layer) (m : method) (segs : list string)
    : option (list middleware * list (string * string)) :=
  match stack with
  | [] => None
  | Use pat target :: stack' =>
      match match_prefix pat segs with
      | Some (bound, _) => Some ([target], bound)
      | None => dispatch stack' m segs
      end
  | Route pat bs :: stack' =>
      match match_whole pat segs with
      | Some bound =>
          match binding m bs with
          | Some fns => Some (fns, bound)
          | None => dispatch stack' m segs
          end
      | None => dispatch stack' m segs
      end
  end.

(** The segments of a request path: it starts with ['/']; one trailing
    slash is dropped. *)
Fixpoint drop_trailing_empty (segs : list string) : list string :=
  match segs with
  | [] => []
  | [EmptyString] => []
  | seg :: segs' => seg :: drop_trailing_empty segs'
  end.

Definition segments (url : string) : option (list string) :=
  match split "/" url with
  | EmptyString :: segs => Some (drop_trailing_empty segs)
  | _ => None
  end.

(** Modelled from the spec: the mount point of the router (the application
    file is not part of the available source).  The spec's route table and
    the route comments of the controller both give [/api/restaurants]. *)
Definition mount : list piece := [Lit "api"; Lit "restaurants"].

Definition app_dispatch (m : method) (url : string)
    : option (list middleware * list (string * string)) :=
  match segments url with
  | None => None
  | Some segs =>
      match match_prefix mount segs with
      | Some (_, rest) => dispatch router m rest
      | None => None
      end
  end.

(** Whether a layer binds a controller function. *)
Definition layer_binds (a : action) (l : layer) : bool :=
  let is_a (f : middleware) :=
    match f with
    | controller b => action_eqb a b
    | _ => false
    end in
  match l with
  | Use _ target => is_a target
  | Route _ bs => existsb (fun b => existsb is_a (snd b)) bs
  end.

(* ================================================================== *)
(** ** A concrete environment for the examples

    A plain decimal reader for the string-to-number conversion, a planar
    stand-in for the engine's distance (1000 m per unit of coordinate
    difference, summed over both axes) and a four-restaurant collection. *)

Module Sample.

Definition digit (c : ascii) : option Z :=
  let n := nat_of_ascii c in
  if (48 <=? n)%nat && (n <=? 57)%nat then Some (Z.of_nat (n - 48)) else None.

Fixpoint digits (s : string) (acc : Z) : option Z :=
  match s with
  | EmptyString => Some acc
  | String c s' =>
      match digit c with
      | Some d => digits s' (10 * acc + d)%Z
      | None => None
      end
  end.

Definition unsigned (s : string) : number :=
  match split "." s with
  | [EmptyString] => NaN
  | [i] =>
      match digits i 0 with
      | Some n => Num (inject_Z n)
      | None => NaN
      end
  | [i; f] =>
      match digits i 0, digits f 0 with
      | Some n, Some m =>
          Num (inject_Z n + inject_Z m / inject_Z (10 ^ Z.of_nat (String.length f)))
      | _, _ => NaN
      end
  | _ => NaN
  end.

(** Reads [ddd], [ddd.ddd] and their negations; the empty string is 0;
    anything else is [NaN]. *)
Definition parseDecimal (s : string) : number :=
  match s with
  | EmptyString => Num 0
  | String "-" s' => num_mul (Num (-1)) (unsigned s')
  | _ => unsigned s
  end.

Definition point (lng lat : Q) : value :=
  VObj [("type", VStr "Point");
        ("coordinates", VArr [VNum (Num lng); VNum (Num lat)])].

Definition coordinates (v : option value) : option (Q * Q) :=
  match v with
  | Some (VObj fs) =>
      match field "coordinates" fs with
      | Some (VArr [VNum (Num x); VNum (Num y)]) => Some (x, y)
      | _ => None
      end
  | _ => None
  end.

Definition planar (near : value) (d : doc) : option Q :=
  match coordinates (Some near), coordinates (field "location" d) with
  | Some (x, y), Some (x', y') => Some (1000 * (Qabs (x - x') + Qabs (y - y')))%Q
  | _, _ => None
  end.

#[local] Instance externals : Externals := {|
  StringToNumber := parseDecimal;
  geoDistance := planar;
  bsonToString := fun _ => None
|}.

Definition restaurant (id name suburb : string) (cuisine : list string)
    (lng lat avg : Q) (qty : Z) : doc :=
  [ ("_id", VStr id); ("name", VStr name); ("suburb", VStr suburb);
    ("cuisine", VArr (map VStr cuisine)); ("location", point lng lat);
    ("ratingsAverage", VNum (Num avg)); ("ratingsQuantity", VNum (Num (inject_Z qty))) ].

Definition collection : list doc :=
  [ restaurant "r1" "Icebergs" "Bondi" ["Italian"; "Seafood"] 152 (-33) 4.5 10;
    restaurant "r2" "Wharf Bar" "Manly" ["Seafood"] 151 (-31) 4 7;
    restaurant "r3" "Bills" "bondi" ["Cafe"] 151 (-33.5) 3.5 4;
    restaurant "r4" "Lox" "BONDI" ["cafe"; "Deli"] 154 (-33) 5 1 ].

Definition has_id (id : option string) (d : doc) : bool :=
  match id, field "_id" d with
  | Some i, Some (VStr j) => String.eqb i j
  | _, _ => false
  end.

(** A model layer holding [coll]: lookups by [_id], aggregation by the
    reference semantics; [find] keeps every located document. *)
Definition model (coll : list doc) : oracle :=
  fun c =>
    match c as c0 return result (Restaurant.reply c0) with
    | Restaurant.findById id _ => Resolved (List.find (has_id id) coll)
    | Restaurant.create (VObj d) => Resolved d
    | Restaurant.create _ => Rejected (DriverError "validation failed")
    | Restaurant.findByIdAndUpdate id (VObj upd) _ =>
        Resolved (option_map (fun d => fold_left (fun d kv => set_field (fst kv) (snd kv) d) upd d)
                             (List.find (has_id id) coll))
    | Restaurant.findByIdAndUpdate _ _ _ => Rejected (DriverError "validation failed")
    | Restaurant.find _ =>
        Resolved (List.filter (fun d => match coordinates (field "location" d) with
                                        | Some _ => true
                                        | None => false
                                        end) coll)
    | Restaurant.aggregate p => Engine.aggregate p coll
    | Restaurant.remove d => Resolved d
    end.

(** A model layer whose every promise rejects. *)
Definition failing : oracle :=
  fun c => Rejected (DriverError "connection lost").

Definition request (ps : list (string * string)) : Request :=
  {| params := ps; body := VNull; advancedQuery := VNull |}.

End Sample.

(* ================================================================== *)
(** ** Vocabulary of the properties *)

(** *** Reading the event log *)

(** The model-layer calls of a log, in order. *)
Definition calls (log : list event) : list Restaurant.call :=
  flat_map (fun ev => match ev with Called c => [c] | _ => [] end) log.

(** The responses sent. *)
Definition responses (log : list event) : list (Z * value) :=
  flat_map (fun ev => match ev with Responded s b => [(s, b)] | _ => [] end) log.

(** An event that forwards a 400 [AppError]. *)
Definition bad_request (ev : event) : Prop :=
  exists message, ev = Forwarded (AppError message 400).

Definition by_id_populated (req : Request) : Restaurant.call :=
  Restaurant.findById (param req "id")
    (Some {| path := "reviews"; select := "review rating" |}).

Definition by_id (req : Request) : Restaurant.call :=
  Restaurant.findById (param req "id") None.

Definition update_by_id (req : Request) : Restaurant.call :=
  Restaurant.findByIdAndUpdate (param req "id") (body req)
    {| new := true; runValidators := true |}.

Definition not_found (req : Request) : event :=
  Forwarded (AppError (not_found_message (param req "id")) 404).

(** *** The geo handlers' parameters *)

(** [const [lat, lng] = latlng.split(',')]. *)
Definition lat_of (latlng : string) : option string :=
  nth_error (split "," latlng) 0.

Definition lng_of (latlng : string) : option string :=
  nth_error (split "," latlng) 1.

(** Either of the two checks of the geo handlers fails. *)
Definition fails_validation (unit : option string) (latlng : string) : bool :=
  negb (truthy (lat_of latlng)) || negb (truthy (lng_of latlng))
  || (strict_neq unit "km" && strict_neq unit "mi").

(** The query of the radius search for the given route parameters. *)
Definition within_call `{Externals} (distance unit : option string) (latlng : string)
    : Restaurant.call :=
  Restaurant.find
    (GeoWithinCenterSphere "location" (js (lng_of latlng), js (lat_of latlng))
       (radius_of unit distance)).

(** The aggregation of the distances endpoint. *)
Definition distances_call `{Externals} (unit : option string) (latlng : string)
    : Restaurant.call :=
  Restaurant.aggregate
    [ GeoNear (near_point (lng_of latlng) (lat_of latlng)) "distance" (multiplier_of unit);
      Project ["name"; "distance"] ].

(** What follows the radius query: the 200 response when it resolves, the
    forwarded rejection otherwise. *)
Definition within_outcome (r : result (list doc)) : list event :=
  match r with
  | Resolved restaurants =>
      [Responded 200
         (VObj [("status", VStr "success");
                ("count", VNum (Num (inject_Z (Z.of_nat (length restaurants)))));
                ("data", VArr (map VObj restaurants))])]
  | Rejected e => [Forwarded e]
  end.

Definition distances_outcome (r : result (list doc)) : list event :=
  match r with
  | Resolved distances =>
      [Responded 200
         (VObj [("status", VStr "success"); ("data", VArr (map VObj distances))])]
  | Rejected e => [Forwarded e]
  end.

(** The same request with its [unit] route parameter replaced. *)
Definition with_unit (unit : string) (req : Request) : Request :=
  {| params := ("unit", unit) :: params req;
     body := body req;
     advancedQuery := advancedQuery req |}.

(** *** Reading a response *)

(** The [data] array of the one response of a log. *)
Definition response_data (log : list event) : list value :=
  match responses log with
  | [(_, VObj fs)] =>
      match field "data" fs with
      | Some (VArr rows) => rows
      | _ => []
      end
  | _ => []
  end.

(** The numeric [distance] field of a row. *)
Definition distance_value (row : doc) : option Q :=
  match field "distance" row with
  | Some (VNum (Num q)) => Some q
  | _ => None
  end.

Definition no_farther (a b : doc) : Prop :=
  match distance_value a, distance_value b with
  | Some x, Some y => (x <= y)%Q
  | _, _ => False
  end.

(** Every row is no farther than every later row. *)
Definition nearest_first (rows : list doc) : Prop :=
  StronglySorted no_farther rows.

(** The request passes both checks of the geo handlers. *)
Definition valid_geo_request (unit : option string) (latlng : string) : Prop :=
  truthy (lat_of latlng) = true /\ truthy (lng_of latlng) = true
  /\ (unit = Some "km" \/ unit = Some "mi").

(** *** Comparing the distances of two responses *)

Definition row_distance (v : value) : option Q :=
  match v with
  | VObj row => distance_value row
  | _ => None
  end.

(** [a] equals [b] up to the relative tolerance [tol]. *)
Definition close (tol a b : Q) : Prop :=
  (Qabs (a - b) <= tol * Qabs b)%Q.

(** A relative tolerance of one part in a million: far above binary64
    rounding, just above the precision of the six-digit miles multiplier. *)
Definition float_tolerance : Q := 0.000001.

(** Row by row, the distance of [from] times [factor] is close to the
    distance of [to]. *)
Definition scaled_by (factor tol : Q) (from to : list value) : Prop :=
  Forall2 (fun x y =>
             match row_distance x, row_distance y with
             | Some a, Some b => close tol (a * factor) b
             | _, _ => False
             end) from to.

(** *** Statistics rows *)

(** Whether a document falls under a group key. *)
Definition has_key `{Externals} (kx : keyExpr) (key : string) (d : doc) : bool :=
  match Engine.eval_key kx d with
  | Resolved k => String.eqb k key
  | Rejected _ => false
  end.

(** The documents of [docs] under a group key, in collection order. *)
Definition members `{Externals} (kx : keyExpr) (key : string) (docs : list doc) : list doc :=
  List.filter (has_key kx key) docs.

(** [row] is the statistics row of the group [key] over [docs]: the count of
    its members, the sum of their numeric [ratingsQuantity] and the average
    of their numeric [ratingsAverage] (null when there is none). *)
Definition is_stats_row `{Externals} (kx : keyExpr) (docs : list doc) (row : doc) : Prop :=
  exists (key : string) (count : Q),
    let ms := members kx key docs in
    let averages := Engine.numeric_values (FieldPath "ratingsAverage") ms in
    ms <> []
    /\ (count == inject_Z (Z.of_nat (length ms)))%Q
    /\ row =
       [ ("_id", VStr key);
         ("numRestaurants", VNum (Num count));
         ("numRatings",
          VNum (Engine.total (Engine.numeric_values (FieldPath "ratingsQuantity") ms)));
         ("avgRating",
          match averages with
          | [] => VNull
          | _ => VNum (num_div (Engine.total averages)
                         (Num (inject_Z (Z.of_nat (length averages)))))
          end) ].

(** [a] has a strictly greater / an equal value than [b] under a field, in
    the engine's order on values (numbers by value, null below them). *)
Definition higher (name : string) (a b : doc) : Prop :=
  Engine.value_compare (field name a) (field name b) = Gt.

Definition same (name : string) (a b : doc) : Prop :=
  Engine.value_compare (field name a) (field name b) = Eq.

(** Descending by restaurant count, then by ratings count, then by average
    rating. *)
Definition stats_order (a b : doc) : Prop :=
  higher "numRestaurants" a b
  \/ (same "numRestaurants" a b
      /\ (higher "numRatings" a b
          \/ (same "numRatings" a b
              /\ (higher "avgRating" a b \/ same "avgRating" a b)))).

(** [stats] is the statistics table of [docs] grouped by [kx]. *)
Definition stats_table `{Externals} (kx : keyExpr) (docs : list doc) (stats : list doc) : Prop :=
  Forall (is_stats_row kx docs) stats
  /\ (forall d key, In d docs -> Engine.eval_key kx d = Resolved key ->
        exists row, In row stats /\ field "_id" row = Some (VStr key))
  /\ NoDup (map (field "_id") stats)
  /\ StronglySorted stats_order stats.

(** The documents paired with [key] in a keyed list, and what it means for
    groups to partition a keyed list. *)
Definition keyed_members (key : string) (kds : list (string * doc)) : list doc :=
  map snd (List.filter (fun kd => String.eqb (fst kd) key) kds).

Definition partitions (kds : list (string * doc)) (gs : list (string * list doc)) : Prop :=
  NoDup (map fst gs)
  /\ (forall g, In g gs -> snd g = keyed_members (fst g) kds /\ snd g <> [])
  /\ (forall kd, In kd kds -> In (fst kd) (map fst gs)).

(** *** Comparisons *)

(** A three-way comparison that is a total preorder. *)
Record Consistent {A : Type} (cmp : A -> A -> comparison) : Prop := {
  cmp_antisym : forall a b, cmp b a = CompOpp (cmp a b);
  cmp_lt_trans : forall a b c, cmp a b = Lt -> cmp b c = Lt -> cmp a c = Lt;
  cmp_eq_compat : forall a b c, cmp a b = Eq -> cmp a c = cmp b c
}.

(** *** Kinds of calls, handlers and requests *)

(** The errors passed to [next], in order. *)
Definition forwards (log : list event) : list error :=
  flat_map (fun ev => match ev with Forwarded e => [e] | _ => [] end) log.

(** Calls that change the collection. *)
Definition writes (c : Restaurant.call) : bool :=
  match c with
  | Restaurant.create _ | Restaurant.findByIdAndUpdate _ _ _ | Restaurant.remove _ => true
  | _ => false
  end.

Definition is_geo (a : action) : bool :=
  match a with
  | GetRestaurantsWithin | GetDistances => true
  | _ => false
  end.

Definition mutating (a : action) : bool :=
  match a with
  | CreateRestaurant | UpdateRestaurant | DeleteRestaurant => true
  | _ => false
  end.

(** The request a handler sees once the router has bound the route
    parameters [ps]. *)
Definition routed (ps : list (string * string)) (b aq : value) : Request :=
  {| params := ps; body := b; advancedQuery := aq |}.

(** No [','] in the string. *)
Fixpoint comma_free (s : string) : bool :=
  match s with
  | EmptyString => true
  | String c s' => negb (Ascii.eqb c ",") && comma_free s'
  end.

(** A count read back from a row as a natural number. *)
Definition as_count (v : option value) : nat :=
  match v with
  | Some (VNum (Num q)) => Z.to_nat (Qfloor q)
  | _ => 0
  end.

(** The sum of the [numRestaurants] of a statistics table. *)
Definition total_count (rows : list doc) : nat :=
  list_sum (map (fun row => as_count (field "numRestaurants" row)) rows).

(* ================================================================== *)
(** * Properties *)

(** ** Single-document handlers *)

(** C7.  Get-one looks the identifier up with the reviews path populated
    and restricted to the fields ["review rating"].  When the lookup resolves
    to null the only thing that follows is [next] with a 404 [AppError], and
    no response is sent; when it resolves to a document the handler responds
    200 with [{status: 'success', data: <that document>}]. *)
Theorem C7_getRestaurant (req : Request) (o : oracle) :
  (o (by_id_populated req) = Resolved None ->
     getRestaurant req o = [Called (by_id_populated req); not_found req]
     /\ responses (getRestaurant req o) = [])
  /\ (forall restaurant : doc,
        o (by_id_populated req) = Resolved (Some restaurant) ->
        getRestaurant req o =
          [Called (by_id_populated req);
           Responded 200 (VObj [("status", VStr "success"); ("data", VObj restaurant)])]).
Proof.
  unfold getRestaurant, asyncHandler, by_id_populated, not_found.
  split.
  - intros Hnull. cbn. rewrite Hnull. cbn. split; reflexivity.
  - intros restaurant Hdoc. cbn. rewrite Hdoc. reflexivity.
Qed.

(** C8.  Update issues exactly one model call,
    [findByIdAndUpdate(id, body, {new: true, runValidators: true})]; a null
    result is answered with [next] and a 404 [AppError] and nothing else, a
    document with a 200 response carrying that (post-update) document. *)
Theorem C8_updateRestaurant (req : Request) (o : oracle) :
  calls (updateRestaurant req o) = [update_by_id req]
  /\ (o (update_by_id req) = Resolved None ->
        updateRestaurant req o = [Called (update_by_id req); not_found req])
  /\ (forall restaurant : doc,
        o (update_by_id req) = Resolved (Some restaurant) ->
        updateRestaurant req o =
          [Called (update_by_id req);
           Responded 200 (VObj [("status", VStr "success"); ("data", VObj restaurant)])]).
Proof.
  unfold updateRestaurant, asyncHandler, update_by_id, not_found.
  cbn. destruct (o _) as [[restaurant|]|e] eqn:Hreply; cbn.
  - repeat split; [discriminate | intros r Hr; inversion Hr; reflexivity].
  - repeat split; intros; discriminate.
  - repeat split; intros; discriminate.
Qed.

(** C9.  Delete first fetches the document by identifier (no population).
    On null it forwards a 404 [AppError] and calls no [remove]; on a
    document it calls [remove] on it and responds 200 with the fetched
    document as [data]. *)
Theorem C9_deleteRestaurant (req : Request) (o : oracle) :
  (o (by_id req) = Resolved None ->
     deleteRestaurant req o = [Called (by_id req); not_found req]
     /\ forall d, ~ In (Restaurant.remove d) (calls (deleteRestaurant req o)))
  /\ (forall restaurant : doc,
        o (by_id req) = Resolved (Some restaurant) ->
        deleteRestaurant req o =
          [Called (by_id req);
           Called (Restaurant.remove restaurant);
           Responded 200 (VObj [("status", VStr "success"); ("data", VObj restaurant)])]).
Proof.
  unfold deleteRestaurant, asyncHandler, by_id, not_found.
  split.
  - intros Hnull. cbn. rewrite Hnull. cbn. split; [reflexivity|].
    intros d [Hd|[]]. discriminate.
  - intros restaurant Hdoc. cbn. rewrite Hdoc. reflexivity.
Qed.

(** ** Geo handlers *)

Lemma bad_request_intro (message : string) :
  bad_request (Forwarded (AppError message 400)).
Proof. exists message. reflexivity. Qed.

(** The event log of the radius search, for every request that carries a
    [latlng] parameter: one forwarded 400 per failed check, then the query,
    then its outcome. *)
Lemma getRestaurantsWithin_log `{Externals} (req : Request) (o : oracle) (latlng : string) :
  param req "latlng" = Some latlng ->
  getRestaurantsWithin req o =
    (if negb (truthy (lat_of latlng)) || negb (truthy (lng_of latlng))
     then [Forwarded (AppError latlng_message 400)] else [])
    ++ (if strict_neq (param req "unit") "km" && strict_neq (param req "unit") "mi"
        then [Forwarded (AppError unit_message 400)] else [])
    ++ Called (within_call (param req "distance") (param req "unit") latlng)
    :: within_outcome (o (within_call (param req "distance") (param req "unit") latlng)).
Proof.
  intros Hl. unfold getRestaurantsWithin, asyncHandler, within_call, within_filter.
  rewrite Hl. fold (lat_of latlng) (lng_of latlng).
  destruct (negb (truthy (lat_of latlng)) || negb (truthy (lng_of latlng)));
    destruct (strict_neq (param req "unit") "km" && strict_neq (param req "unit") "mi");
    cbn; destruct (o _); reflexivity.
Qed.

Lemma getDistances_log `{Externals} (req : Request) (o : oracle) (latlng : string) :
  param req "latlng" = Some latlng ->
  getDistances req o =
    (if negb (truthy (lat_of latlng)) || negb (truthy (lng_of latlng))
     then [Forwarded (AppError latlng_message 400)] else [])
    ++ (if strict_neq (param req "unit") "km" && strict_neq (param req "unit") "mi"
        then [Forwarded (AppError unit_message 400)] else [])
    ++ Called (distances_call (param req "unit") latlng)
    :: distances_outcome (o (distances_call (param req "unit") latlng)).
Proof.
  intros Hl. unfold getDistances, asyncHandler, distances_call, distances_pipeline.
  rewrite Hl. fold (lat_of latlng) (lng_of latlng).
  destruct (negb (truthy (lat_of latlng)) || negb (truthy (lng_of latlng)));
    destruct (strict_neq (param req "unit") "km" && strict_neq (param req "unit") "mi");
    cbn; destruct (o _); reflexivity.
Qed.

(** C1.  In both geo handlers a request whose [lat] or [lng] is missing, or
    whose unit is neither ['km'] nor ['mi'], makes the handler call [next]
    with a 400 [AppError] and then go on: the database call is still issued,
    and what follows it is what follows it for any request, the 200 response
    once the call resolves. *)
Theorem C1_validation_does_not_halt `{Externals}
    (req : Request) (o : oracle) (latlng : string) :
  param req "latlng" = Some latlng ->
  fails_validation (param req "unit") latlng = true ->
  (exists pre,
      pre <> [] /\ Forall bad_request pre /\
      getRestaurantsWithin req o =
        pre ++ Called (within_call (param req "distance") (param req "unit") latlng)
            :: within_outcome (o (within_call (param req "distance") (param req "unit") latlng)))
  /\ (exists pre,
      pre <> [] /\ Forall bad_request pre /\
      getDistances req o =
        pre ++ Called (distances_call (param req "unit") latlng)
            :: distances_outcome (o (distances_call (param req "unit") latlng))).
Proof.
  intros Hl Hbad. unfold fails_validation in Hbad.
  rewrite (getRestaurantsWithin_log req o latlng Hl), (getDistances_log req o latlng Hl).
  destruct (negb (truthy (lat_of latlng)) || negb (truthy (lng_of latlng))) eqn:Hpoint;
    destruct (strict_neq (param req "unit") "km" && strict_neq (param req "unit") "mi") eqn:Hunit;
    cbn in Hbad; try discriminate.
  - split; exists [Forwarded (AppError latlng_message 400); Forwarded (AppError unit_message 400)];
      (split; [discriminate | split; [| reflexivity]]);
      repeat constructor; apply bad_request_intro.
  - split; exists [Forwarded (AppError latlng_message 400)];
      (split; [discriminate | split; [| reflexivity]]);
      repeat constructor; apply bad_request_intro.
  - split; exists [Forwarded (AppError unit_message 400)];
      (split; [discriminate | split; [| reflexivity]]);
      repeat constructor; apply bad_request_intro.
Qed.

Lemma getRestaurantsWithin_calls `{Externals} (req : Request) (o : oracle) (latlng : string) :
  param req "latlng" = Some latlng ->
  calls (getRestaurantsWithin req o) =
    [within_call (param req "distance") (param req "unit") latlng].
Proof.
  intros Hl. rewrite (getRestaurantsWithin_log req o latlng Hl).
  destruct (negb (truthy (lat_of latlng)) || negb (truthy (lng_of latlng)));
    destruct (strict_neq (param req "unit") "km" && strict_neq (param req "unit") "mi");
    destruct (o _); reflexivity.
Qed.

(** C4.  The radius search issues one query.  Its radius is the distance
    parameter divided by 6378.16 when the unit is ['km'] and by 3963.2 when
    it is ['mi'], and the centre of its sphere is the pair with the
    longitude (the second component of ["lat,lng"]) first and the latitude
    (the first component) second. *)
Theorem C4_radius_and_center `{Externals} (req : Request) (o : oracle) (latlng : string) :
  param req "latlng" = Some latlng ->
  (param req "unit" = Some "km" ->
     calls (getRestaurantsWithin req o) =
       [Restaurant.find
          (GeoWithinCenterSphere "location"
             (js (nth_error (split "," latlng) 1), js (nth_error (split "," latlng) 0))
             (num_div (ToNumber (param req "distance")) (Num 6378.16)))]
     /\ forall d : Q,
          ToNumber (param req "distance") = Num d ->
          radius_of (param req "unit") (param req "distance") = Num (d / 6378.16))
  /\ (param req "unit" = Some "mi" ->
     calls (getRestaurantsWithin req o) =
       [Restaurant.find
          (GeoWithinCenterSphere "location"
             (js (nth_error (split "," latlng) 1), js (nth_error (split "," latlng) 0))
             (num_div (ToNumber (param req "distance")) (Num 3963.2)))]
     /\ forall d : Q,
          ToNumber (param req "distance") = Num d ->
          radius_of (param req "unit") (param req "distance") = Num (d / 3963.2)).
Proof.
  intros Hl.
  rewrite (getRestaurantsWithin_calls req o latlng Hl).
  unfold within_call, radius_of, lng_of, lat_of.
  split; intros Hunit; rewrite Hunit; cbn [strict_eq String.eqb Ascii.eqb Bool.eqb];
    (split; [reflexivity | intros d Hd; rewrite Hd; reflexivity]).
Qed.

Lemma radius_of_other_unit `{Externals} (unit distance : option string) :
  strict_neq unit "km" = true ->
  radius_of unit distance = num_div (ToNumber distance) (Num 3963.2).
Proof.
  unfold strict_neq, radius_of. intros Hkm.
  destruct (strict_eq unit "km"); [discriminate | reflexivity].
Qed.

(** C10.  When the unit is neither ['km'] nor ['mi'] the radius is still
    computed, with the miles constant: the handler forwards the 400 for the
    unit and then issues the query of the same request with unit ['mi'];
    apart from that forwarded error the two requests produce the same
    events. *)
Theorem C10_unknown_unit_queries_as_miles `{Externals}
    (req : Request) (o : oracle) (latlng : string) :
  param req "latlng" = Some latlng ->
  strict_neq (param req "unit") "km" = true ->
  strict_neq (param req "unit") "mi" = true ->
  radius_of (param req "unit") (param req "distance")
    = num_div (ToNumber (param req "distance")) (Num 3963.2)
  /\ calls (getRestaurantsWithin req o) =
       [Restaurant.find
          (GeoWithinCenterSphere "location" (js (lng_of latlng), js (lat_of latlng))
             (num_div (ToNumber (param req "distance")) (Num 3963.2)))]
  /\ exists pre rest,
       getRestaurantsWithin req o = pre ++ Forwarded (AppError unit_message 400) :: rest
       /\ getRestaurantsWithin (with_unit "mi" req) o = pre ++ rest
       /\ In (Called (within_call (param req "distance") (Some "mi") latlng)) rest.
Proof.
  intros Hl Hkm Hmi.
  pose proof (radius_of_other_unit _ (param req "distance") Hkm) as Hradius.
  split; [exact Hradius|].
  split.
  - rewrite (getRestaurantsWithin_calls req o latlng Hl).
    unfold within_call. rewrite Hradius. reflexivity.
  - assert (Hl' : param (with_unit "mi" req) "latlng" = Some latlng) by exact Hl.
    rewrite (getRestaurantsWithin_log req o latlng Hl).
    rewrite (getRestaurantsWithin_log (with_unit "mi" req) o latlng Hl').
    change (param (with_unit "mi" req) "unit") with (Some "mi").
    change (param (with_unit "mi" req) "distance") with (param req "distance").
    assert (Hmiles : radius_of (Some "mi") (param req "distance")
                     = num_div (ToNumber (param req "distance")) (Num 3963.2))
      by reflexivity.
    unfold within_call. rewrite Hradius, Hmiles, Hkm, Hmi. cbn [andb].
    exists (if negb (truthy (lat_of latlng)) || negb (truthy (lng_of latlng))
            then [Forwarded (AppError latlng_message 400)] else []).
    eexists.
    split; [reflexivity|]. split; [reflexivity|]. left. reflexivity.
Qed.

(** ** Router *)

Lemma binding_In (m : method) (bs : list (method * list middleware)) (fns : list middleware) :
  binding m bs = Some fns -> In fns (map snd bs).
Proof.
  induction bs as [|[m' fns'] bs IH]; cbn; [discriminate|].
  destruct (method_eqb m' m).
  - intros Hfns. inversion Hfns. left. reflexivity.
  - intros Hfns. right. apply IH. exact Hfns.
Qed.

(** Whatever the router hands a request to is bound in one of its layers. *)
Lemma dispatch_bound (stack : list layer) (m : method) (segs : list string)
    (fns : list middleware) (ps : list (string * string)) (a : action) :
  dispatch stack m segs = Some (fns, ps) ->
  In (controller a) fns ->
  exists l, In l stack /\ layer_binds a l = true.
Proof.
  induction stack as [|l stack IH]; cbn; [discriminate|].
  intros Hd Ha.
  assert (Hrest : dispatch stack m segs = Some (fns, ps) ->
                  exists l0, (l = l0 \/ In l0 stack) /\ layer_binds a l0 = true).
  { intros Hd'. destruct (IH Hd' Ha) as [l0 [Hin Hb]]. exists l0. auto. }
  destruct l as [pat target | pat bs].
  - destruct (match_prefix pat segs) as [[bound rest]|]; [|auto].
    inversion Hd; subst. exists (Use pat target). split; [left; reflexivity|].
    destruct Ha as [Ha|[]]. subst target. cbn. destruct a; reflexivity.
  - destruct (match_whole pat segs) as [bound|]; [|auto].
    destruct (binding m bs) as [fns'|] eqn:Hb; [|auto].
    inversion Hd; subst. exists (Route pat bs). split; [left; reflexivity|].
    cbn. apply existsb_exists.
    apply binding_In in Hb. apply in_map_iff in Hb. destruct Hb as [b [Hsnd Hin]].
    exists b. split; [exact Hin|]. rewrite Hsnd.
    apply existsb_exists. exists (controller a). split; [exact Ha|].
    destruct a; reflexivity.
Qed.

(** No request is ever handed to either statistics handler. *)
Lemma stats_handlers_unreachable (m : method) (url : string)
    (fns : list middleware) (ps : list (string * string)) :
  app_dispatch m url = Some (fns, ps) ->
  ~ In (controller GetStatsBySuburb) fns /\ ~ In (controller GetStatsByCuisine) fns.
Proof.
  unfold app_dispatch.
  destruct (segments url) as [segs|]; [|discriminate].
  destruct (match_prefix mount segs) as [[bound rest]|]; [|discriminate].
  intros Hd. split; intros Ha;
    destruct (dispatch_bound _ _ _ _ _ _ Hd Ha) as [l [Hin Hb]];
    cbn in Hin; repeat (destruct Hin as [Hin|Hin]; [subst l; discriminate|]);
    destruct Hin.
Qed.

(** C2 (what the code does).  The router binds neither statistics handler.
    [GET /api/restaurants/stats-by-suburb] and
    [GET /api/restaurants/stats-by-cuisine] fall through to the [/:id]
    route: the handler that runs is get-one, with the path's last segment as
    the identifier, and the only model call it makes is the lookup by that
    identifier, never an aggregation. *)
Theorem C2_stats_paths_run_getRestaurant :
  app_dispatch GET "/api/restaurants/stats-by-suburb"
    = Some ([controller GetRestaurant], [("id", "stats-by-suburb")])
  /\ app_dispatch GET "/api/restaurants/stats-by-cuisine"
    = Some ([controller GetRestaurant], [("id", "stats-by-cuisine")])
  /\ Forall (fun l => layer_binds GetStatsBySuburb l = false
                      /\ layer_binds GetStatsByCuisine l = false) router
  /\ forall (E : Externals) (o : oracle),
       calls (handler_of GetRestaurant (Sample.request [("id", "stats-by-suburb")]) o)
       = [Restaurant.findById (Some "stats-by-suburb")
            (Some {| path := "reviews"; select := "review rating" |})].
Proof.
  split; [reflexivity|]. split; [reflexivity|]. split.
  - repeat constructor.
  - intros E o. unfold handler_of, getRestaurant, asyncHandler. cbn.
    destruct (o _) as [[d|]|e]; reflexivity.
Qed.

(** ** Insertion sort *)

Section InsertionSort.

Context {A : Type} (le : A -> A -> bool).
Hypothesis le_total : forall a b, le a b = false -> le b a = true.
Hypothesis le_trans : forall a b c, le a b = true -> le b c = true -> le a c = true.

Lemma insert_by_perm (x : A) (l : list A) :
  Permutation (x :: l) (Engine.insert_by le x l).
Proof.
  induction l as [|y l IH]; cbn; [reflexivity|].
  destruct (le x y); [reflexivity|].
  rewrite perm_swap. constructor. exact IH.
Qed.

Lemma sort_by_perm (l : list A) : Permutation l (Engine.sort_by le l).
Proof.
  induction l as [|x l IH]; cbn; [constructor|].
  fold (Engine.sort_by le l).
  rewrite <- insert_by_perm. constructor. exact IH.
Qed.

Lemma insert_by_sorted (x : A) (l : list A) :
  StronglySorted (fun a b => le a b = true) l ->
  StronglySorted (fun a b => le a b = true) (Engine.insert_by le x l).
Proof.
  induction l as [|y l IH]; cbn; intros Hs.
  - constructor; constructor.
  - inversion Hs as [|y' l' Hl Hy]; subst.
    destruct (le x y) eqn:Hxy.
    + constructor; [exact Hs|].
      constructor; [exact Hxy|].
      eapply Forall_impl; [|exact Hy]. intros z Hz. eapply le_trans; eassumption.
    + constructor; [apply IH; exact Hl|].
      eapply Permutation_Forall; [apply insert_by_perm|].
      constructor; [apply le_total; exact Hxy | exact Hy].
Qed.

Lemma sort_by_sorted (l : list A) :
  StronglySorted (fun a b => le a b = true) (Engine.sort_by le l).
Proof.
  induction l as [|x l IH]; cbn; [constructor|].
  apply insert_by_sorted. exact IH.
Qed.

End InsertionSort.

(** ** Documents *)

Lemma field_set_field_same (name : string) (v : value) (d : doc) :
  field name (set_field name v d) = Some v.
Proof.
  induction d as [|[k w] d IH]; cbn.
  - rewrite String.eqb_refl. reflexivity.
  - destruct (String.eqb k name) eqn:Hk; cbn; rewrite Hk; [reflexivity | exact IH].
Qed.

Lemma field_set_field_other (name other : string) (v : value) (d : doc) :
  String.eqb other name = false ->
  field name (set_field other v d) = field name d.
Proof.
  intros Hne. induction d as [|[k w] d IH]; cbn.
  - rewrite Hne. reflexivity.
  - destruct (String.eqb k other) eqn:Hk; cbn.
    + apply String.eqb_eq in Hk. subst k. rewrite Hne. reflexivity.
    + destruct (String.eqb k name); [reflexivity | exact IH].
Qed.

Lemma field_project (name : string) (include : list string) (d : doc) :
  existsb (String.eqb name) include = true ->
  field name (Engine.project include d) = field name d.
Proof.
  intros Hin. unfold Engine.project.
  induction d as [|[k w] d IH]; cbn; [reflexivity|].
  destruct (String.eqb k name) eqn:Hk.
  - apply String.eqb_eq in Hk. subst k. rewrite Hin, orb_true_r. cbn.
    rewrite String.eqb_refl. reflexivity.
  - destruct (String.eqb k "_id" || existsb (String.eqb k) include); cbn.
    + rewrite Hk. exact IH.
    + exact IH.
Qed.

Lemma project_keys (include : list string) (d : doc) (k : string) (v : value) :
  In (k, v) (Engine.project include d) -> k = "_id" \/ In k include.
Proof.
  unfold Engine.project. intros Hin. apply filter_In in Hin. destruct Hin as [_ Hkeep].
  cbn in Hkeep. apply orb_true_iff in Hkeep. destruct Hkeep as [Hid|Hex].
  - left. apply String.eqb_eq. exact Hid.
  - right. apply existsb_exists in Hex. destruct Hex as [x [Hx Heq]].
    apply String.eqb_eq in Heq. subst x. exact Hx.
Qed.

(** ** The nearness stage *)

Lemma located_In `{Externals} (near : value) (coll : list doc) (m : Q) (d : doc) :
  In (m, d) (Engine.located near coll) <-> In d coll /\ geoDistance near d = Some m.
Proof.
  unfold Engine.located. rewrite in_flat_map. split.
  - intros [d' [Hd' Hin]]. destruct (geoDistance near d') as [m'|] eqn:Hg; [|destruct Hin].
    destruct Hin as [Heq|[]]. inversion Heq; subst. split; assumption.
  - intros [Hd Hg]. exists d. split; [exact Hd|]. rewrite Hg. left. reflexivity.
Qed.

Lemma nearer_total (a b : Q * doc) :
  Engine.nearer a b = false -> Engine.nearer b a = true.
Proof.
  unfold Engine.nearer. intros Hab. apply Qle_bool_iff.
  destruct (Qlt_le_dec (fst b) (fst a)) as [Hlt|Hle].
  - apply Qlt_le_weak. exact Hlt.
  - apply Qle_bool_iff in Hle. rewrite Hle in Hab. discriminate.
Qed.

Lemma nearer_trans (a b c : Q * doc) :
  Engine.nearer a b = true -> Engine.nearer b c = true -> Engine.nearer a c = true.
Proof.
  unfold Engine.nearer. rewrite !Qle_bool_iff. apply Qle_trans.
Qed.

Lemma StronglySorted_map_impl {A B : Type} (R : A -> A -> Prop) (S : B -> B -> Prop)
    (f : A -> B) (l : list A) :
  (forall a b, R a b -> S (f a) (f b)) ->
  StronglySorted R l -> StronglySorted S (map f l).
Proof.
  intros HRS Hs. induction Hs as [|a l Hl IH Ha]; cbn; constructor.
  - exact IH.
  - apply Forall_map. eapply Forall_impl; [|exact Ha]. intros b. apply HRS.
Qed.

(** One row of the distances endpoint, from a document and its distance in
    meters. *)
Lemma distance_row_fields (mult : Q) (m : Q) (d : doc) :
  let row := Engine.project ["name"; "distance"]
               (set_field "distance" (VNum (num_mul (Num m) (Num mult))) d) in
  field "distance" row = Some (VNum (Num (m * mult)))
  /\ field "name" row = field "name" d
  /\ forall k v, In (k, v) row -> k = "_id" \/ k = "name" \/ k = "distance".
Proof.
  cbn zeta. split; [|split].
  - rewrite field_project by reflexivity. apply field_set_field_same.
  - rewrite field_project by reflexivity. apply field_set_field_other. reflexivity.
  - intros k v Hin. apply project_keys in Hin.
    destruct Hin as [Hid|[Hn|[Hd|[]]]]; auto.
Qed.

(** What the distances pipeline resolves to under the reference semantics. *)
Lemma distances_pipeline_rows `{Externals} (near : value) (mult : Q) (coll : list doc) :
  Engine.aggregate [GeoNear near "distance" (Num mult); Project ["name"; "distance"]] coll
  = Resolved
      (map (fun md => Engine.project ["name"; "distance"]
                        (set_field "distance" (VNum (num_mul (Num (fst md)) (Num mult))) (snd md)))
           (Engine.sort_by Engine.nearer (Engine.located near coll))).
Proof.
  cbn. unfold Engine.geoNear. rewrite map_map. reflexivity.
Qed.

Lemma valid_geo_request_passes (unit : option string) (latlng : string) :
  valid_geo_request unit latlng ->
  negb (truthy (lat_of latlng)) || negb (truthy (lng_of latlng)) = false
  /\ strict_neq unit "km" && strict_neq unit "mi" = false.
Proof.
  intros [Hlat [Hlng Hunit]]. rewrite Hlat, Hlng. split; [reflexivity|].
  destruct Hunit as [Hu|Hu]; rewrite Hu; reflexivity.
Qed.

(** The log of the distances endpoint for a valid request, when the model
    layer answers aggregations over [coll] as the engine does. *)
Lemma getDistances_valid_log `{Externals} (req : Request) (o : oracle) (coll : list doc)
    (latlng : string) :
  param req "latlng" = Some latlng ->
  valid_geo_request (param req "unit") latlng ->
  aggregates_over o coll ->
  let near := near_point (lng_of latlng) (lat_of latlng) in
  let mult := if strict_eq (param req "unit") "km" then 0.001%Q else 0.000621371%Q in
  getDistances req o =
    [Called (Restaurant.aggregate
               [GeoNear near "distance" (Num mult); Project ["name"; "distance"]]);
     Responded 200
       (VObj [("status", VStr "success");
              ("data", VArr (map VObj
                 (map (fun md => Engine.project ["name"; "distance"]
                                   (set_field "distance"
                                      (VNum (num_mul (Num (fst md)) (Num mult))) (snd md)))
                      (Engine.sort_by Engine.nearer (Engine.located near coll)))))])].
Proof.
  intros Hl Hvalid Hagg near mult.
  rewrite (getDistances_log req o latlng Hl).
  destruct (valid_geo_request_passes _ _ Hvalid) as [Hpoint Hunit].
  rewrite Hpoint, Hunit. cbn [app].
  unfold distances_call.
  assert (Hmult : multiplier_of (param req "unit") = Num mult).
  { unfold multiplier_of, mult. destruct (strict_eq (param req "unit") "km"); reflexivity. }
  rewrite Hmult. fold near.
  rewrite (Hagg _), distances_pipeline_rows. reflexivity.
Qed.

(** C5.  For a valid distances request, with the model layer answering as
    the engine does over a collection: the handler issues the two-stage
    pipeline, a nearness stage about the point [[lng * 1, lat * 1]] with
    multiplier 0.001 for ['km'] and 0.000621371 otherwise, then a projection
    listing [name] and [distance], and responds 200.  Every row of the
    response comes from a located document of the collection, has that
    document's name, has as [distance] the engine's distance in meters times
    the multiplier, and has no field besides [_id], [name] and [distance];
    there is one row per located document, and the rows are ordered nearest
    first. *)
Theorem C5_getDistances `{Externals} (req : Request) (o : oracle) (coll : list doc)
    (latlng : string) :
  param req "latlng" = Some latlng ->
  valid_geo_request (param req "unit") latlng ->
  aggregates_over o coll ->
  let near := near_point (lng_of latlng) (lat_of latlng) in
  let mult := if strict_eq (param req "unit") "km" then 0.001%Q else 0.000621371%Q in
  exists rows : list doc,
    getDistances req o =
      [Called (Restaurant.aggregate
                 [GeoNear near "distance" (Num mult); Project ["name"; "distance"]]);
       Responded 200 (VObj [("status", VStr "success"); ("data", VArr (map VObj rows))])]
    /\ Forall (fun row =>
                 exists (d : doc) (meters : Q),
                   In d coll /\ geoDistance near d = Some meters
                   /\ field "distance" row = Some (VNum (Num (meters * mult)))
                   /\ field "name" row = field "name" d
                   /\ forall k v, In (k, v) row ->
                                  k = "_id" \/ k = "name" \/ k = "distance") rows
    /\ length rows = length (Engine.located near coll)
    /\ nearest_first rows.
Proof.
  intros Hl Hvalid Hagg near mult.
  eexists. split; [apply (getDistances_valid_log req o coll latlng Hl Hvalid Hagg)|].
  fold near mult.
  assert (Hpos : (0 <= mult)%Q).
  { unfold mult. destruct (strict_eq (param req "unit") "km"); discriminate. }
  split; [|split].
  - apply Forall_map. apply Forall_forall. intros [m d] Hin.
    eapply Permutation_in in Hin;
      [|apply Permutation_sym; apply sort_by_perm].
    apply located_In in Hin. destruct Hin as [Hd Hg].
    exists d, m. cbn [fst snd].
    destruct (distance_row_fields mult m d) as [Hdist [Hname Hkeys]].
    repeat split; assumption.
  - rewrite length_map. apply Permutation_length.
    apply Permutation_sym. apply sort_by_perm.
  - unfold nearest_first.
    eapply StronglySorted_map_impl;
      [|apply (sort_by_sorted Engine.nearer nearer_total nearer_trans)].
    intros [ma da] [mb db] Hle. cbn [fst snd]. unfold no_farther, distance_value.
    destruct (distance_row_fields mult ma da) as [Ha _].
    destruct (distance_row_fields mult mb db) as [Hb _].
    cbn zeta in Ha, Hb. rewrite Ha, Hb.
    unfold Engine.nearer in Hle. cbn [fst] in Hle. apply Qle_bool_iff in Hle.
    apply Qmult_le_compat_r; assumption.
Qed.

(** ** Distances in the two units *)

Lemma response_data_single (c : Restaurant.call) (s : Z) (status : value) (rows : list value) :
  response_data [Called c; Responded s (VObj [("status", status); ("data", VArr rows)])]
  = rows.
Proof. reflexivity. Qed.

Lemma Forall2_map_same {A B : Type} (R : B -> B -> Prop) (f g : A -> B) (l : list A) :
  (forall x, In x l -> R (f x) (g x)) -> Forall2 R (map f l) (map g l).
Proof.
  induction l as [|x l IH]; cbn; intros HR; constructor.
  - apply HR. left. reflexivity.
  - apply IH. intros y Hy. apply HR. right. exact Hy.
Qed.

(** The two multipliers: miles times 1.609344 is kilometres to within three
    parts in ten million. *)
Lemma miles_to_km_close (meters : Q) :
  close float_tolerance (meters * 0.000621371 * 1.609344) (meters * 0.001).
Proof.
  unfold close, float_tolerance.
  assert (Hdiff : (meters * 0.000621371 * 1.609344 - meters * 0.001
                   == meters * (0.000621371 * 1.609344 - 0.001))%Q) by ring.
  rewrite Hdiff, !Qabs_Qmult.
  assert (Hrhs : (0.000001 * (Qabs meters * Qabs 0.001)
                  == Qabs meters * (0.000001 * Qabs 0.001))%Q) by ring.
  rewrite Hrhs.
  rewrite (Qmult_comm (Qabs meters) (Qabs _)), (Qmult_comm (Qabs meters) (_ * _)).
  apply Qmult_le_compat_r; [|apply Qabs_nonneg].
  discriminate.
Qed.

(** C3 (as the code has it).  For one query point and one collection, the
    kilometre and mile responses of the distances endpoint list the same
    located documents in the same order; row by row both distances are the
    same engine distance in meters, times 0.001 and times 0.000621371; hence
    the mile value times 1.609344 equals the kilometre value up to a relative
    error of one part in a million (exact arithmetic). *)
Theorem C3_miles_times_factor_is_km `{Externals} (req : Request) (o : oracle)
    (coll : list doc) (latlng : string) :
  param req "latlng" = Some latlng ->
  truthy (lat_of latlng) = true ->
  truthy (lng_of latlng) = true ->
  aggregates_over o coll ->
  let km := response_data (getDistances (with_unit "km" req) o) in
  let mi := response_data (getDistances (with_unit "mi" req) o) in
  length km = length (Engine.located (near_point (lng_of latlng) (lat_of latlng)) coll)
  /\ Forall2 (fun x y => exists meters : Q,
                 row_distance x = Some (meters * 0.001)%Q
                 /\ row_distance y = Some (meters * 0.000621371)%Q) km mi
  /\ scaled_by 1.609344 float_tolerance mi km.
Proof.
  intros Hl Hlat Hlng Hagg km mi.
  assert (Hkm : valid_geo_request (param (with_unit "km" req) "unit") latlng).
  { repeat split; auto. }
  assert (Hmi : valid_geo_request (param (with_unit "mi" req) "unit") latlng).
  { repeat split; auto. }
  pose proof (getDistances_valid_log (with_unit "km" req) o coll latlng Hl Hkm Hagg) as Ekm.
  pose proof (getDistances_valid_log (with_unit "mi" req) o coll latlng Hl Hmi Hagg) as Emi.
  cbn zeta in Ekm, Emi.
  change (param (with_unit "km" req) "unit") with (Some "km") in Ekm.
  change (param (with_unit "mi" req) "unit") with (Some "mi") in Emi.
  change (strict_eq (Some "km") "km") with true in Ekm.
  change (strict_eq (Some "mi") "km") with false in Emi.
  cbv iota in Ekm, Emi.
  subst km mi. rewrite Ekm, Emi, !response_data_single.
  split; [|split].
  - rewrite !length_map. apply Permutation_length.
    apply Permutation_sym. apply sort_by_perm.
  - rewrite !map_map. apply Forall2_map_same. intros [m d] _. exists m.
    cbn [fst snd row_distance]. unfold distance_value.
    destruct (distance_row_fields 0.001 m d) as [Ha _].
    destruct (distance_row_fields 0.000621371 m d) as [Hb _].
    cbn zeta in Ha, Hb. rewrite Ha, Hb. split; reflexivity.
  - unfold scaled_by. rewrite !map_map. apply Forall2_map_same. intros [m d] _.
    cbn [fst snd row_distance]. unfold distance_value.
    destruct (distance_row_fields 0.001 m d) as [Ha _].
    destruct (distance_row_fields 0.000621371 m d) as [Hb _].
    cbn zeta in Ha, Hb. rewrite Ha, Hb. apply miles_to_km_close.
Qed.

(** C3 fails as stated.  Over the sample collection, from the point
    ["-33,151"], the nearest restaurant gets 0.5 in kilometres and 0.3106855
    in miles: the kilometre value times 1.609344 is 0.804672, which differs
    from the mile value by more than the mile value itself. *)
Lemma C3_km_times_factor_is_not_miles :
  let km := response_data
              (@getDistances Sample.externals
                 (Sample.request [("latlng", "-33,151"); ("unit", "km")])
                 (Sample.model Sample.collection)) in
  let mi := response_data
              (@getDistances Sample.externals
                 (Sample.request [("latlng", "-33,151"); ("unit", "mi")])
                 (Sample.model Sample.collection)) in
  map row_distance km = [Some 0.5000; Some 1.000; Some 2.000; Some 3.000]%Q
  /\ map row_distance mi
     = [Some 0.3106855000; Some 0.621371000; Some 1.242742000; Some 1.864113000]%Q
  /\ ~ scaled_by 1.609344 float_tolerance km mi
  /\ ~ scaled_by 1.609344 1 km mi.
Proof.
  cbv zeta. split; [vm_compute; reflexivity|]. split; [vm_compute; reflexivity|].
  split; intros Hclaim; unfold scaled_by in Hclaim;
    inversion Hclaim as [|x y kms mis Hhead Htail Ekm Emi];
    vm_compute in Ekm; vm_compute in Emi;
    inversion Ekm; inversion Emi; subst x y;
    vm_compute in Hhead; apply Hhead; reflexivity.
Qed.

(** ** Comparisons *)

Section ConsistentFacts.

Context {A : Type} (cmp : A -> A -> comparison) (Hc : Consistent cmp).

Lemma cmp_eq_sym (a b : A) : cmp a b = Eq -> cmp b a = Eq.
Proof. intros Hab. rewrite (cmp_antisym cmp Hc a b), Hab. reflexivity. Qed.

Lemma cmp_eq_compat_r (a b c : A) : cmp a b = Eq -> cmp c a = cmp c b.
Proof.
  intros Hab.
  rewrite (cmp_antisym cmp Hc a c), (cmp_antisym cmp Hc b c).
  f_equal. apply (cmp_eq_compat cmp Hc). exact Hab.
Qed.

Lemma cmp_gt_lt (a b : A) : cmp a b = Gt -> cmp b a = Lt.
Proof. intros Hab. rewrite (cmp_antisym cmp Hc a b), Hab. reflexivity. Qed.

Lemma cmp_lt_gt (a b : A) : cmp a b = Lt -> cmp b a = Gt.
Proof. intros Hab. rewrite (cmp_antisym cmp Hc a b), Hab. reflexivity. Qed.

Lemma cmp_le_trans (a b c : A) :
  cmp a b <> Gt -> cmp b c <> Gt -> cmp a c <> Gt.
Proof.
  intros Hab Hbc.
  destruct (cmp a b) eqn:Eab; [| |congruence].
  - rewrite (cmp_eq_compat cmp Hc a b c Eab). exact Hbc.
  - destruct (cmp b c) eqn:Ebc; [| |congruence].
    + rewrite <- (cmp_eq_compat_r b c a Ebc), Eab. discriminate.
    + rewrite (cmp_lt_trans cmp Hc a b c Eab Ebc). discriminate.
Qed.

End ConsistentFacts.

Lemma Consistent_opp {A : Type} (cmp : A -> A -> comparison) :
  Consistent cmp -> Consistent (fun a b => CompOpp (cmp a b)).
Proof.
  intros Hc. constructor.
  - intros a b. rewrite (cmp_antisym cmp Hc a b). reflexivity.
  - intros a b c Hab Hbc.
    apply (f_equal CompOpp) in Hab, Hbc. rewrite CompOpp_involutive in Hab, Hbc.
    cbn in Hab, Hbc.
    apply (cmp_gt_lt cmp Hc) in Hab, Hbc.
    rewrite (cmp_lt_gt cmp Hc c a); [reflexivity|].
    apply (cmp_lt_trans cmp Hc c b a); assumption.
  - intros a b c Hab. f_equal. apply (cmp_eq_compat cmp Hc).
    destruct (cmp a b); [reflexivity | discriminate | discriminate].
Qed.

Lemma Consistent_on {A B : Type} (f : B -> A) (cmp : A -> A -> comparison) :
  Consistent cmp -> Consistent (fun a b => cmp (f a) (f b)).
Proof.
  intros Hc. constructor.
  - intros a b. apply (cmp_antisym cmp Hc).
  - intros a b c. apply (cmp_lt_trans cmp Hc).
  - intros a b c. apply (cmp_eq_compat cmp Hc).
Qed.

Lemma Consistent_lex {A : Type} (c1 c2 : A -> A -> comparison) :
  Consistent c1 -> Consistent c2 ->
  Consistent (fun a b => match c1 a b with Eq => c2 a b | r => r end).
Proof.
  intros H1 H2. constructor.
  - intros a b. rewrite (cmp_antisym c1 H1 a b).
    destruct (c1 a b); cbn; [apply (cmp_antisym c2 H2) | reflexivity | reflexivity].
  - intros a b c Hab Hbc.
    destruct (c1 a b) eqn:Eab; [| |discriminate].
    + rewrite (cmp_eq_compat c1 H1 a b c Eab).
      destruct (c1 b c); [|reflexivity|discriminate].
      apply (cmp_lt_trans c2 H2 a b c); assumption.
    + destruct (c1 b c) eqn:Ebc; [| |discriminate].
      * rewrite <- (cmp_eq_compat_r c1 H1 b c a Ebc), Eab. reflexivity.
      * rewrite (cmp_lt_trans c1 H1 a b c Eab Ebc). reflexivity.
  - intros a b c Hab.
    destruct (c1 a b) eqn:Eab; [|discriminate|discriminate].
    rewrite (cmp_eq_compat c1 H1 a b c Eab).
    destruct (c1 b c); [|reflexivity|reflexivity].
    apply (cmp_eq_compat c2 H2). exact Hab.
Qed.

Lemma Consistent_trivial {A : Type} : Consistent (fun _ _ : A => Eq).
Proof. constructor; intros; auto. Qed.

Lemma Consistent_nat : Consistent Nat.compare.
Proof.
  constructor.
  - intros a b. apply Nat.compare_antisym.
  - intros a b c. rewrite !Nat.compare_lt_iff. lia.
  - intros a b c Hab. apply Nat.compare_eq_iff in Hab. subst. reflexivity.
Qed.

Lemma Consistent_Q : Consistent Qcompare.
Proof.
  constructor.
  - intros a b. symmetry. apply Qcompare_antisym.
  - intros a b c. rewrite <- !Qlt_alt. apply Qlt_trans.
  - intros a b c Hab. apply Qeq_alt in Hab. rewrite Hab. reflexivity.
Qed.

Lemma Consistent_number : Consistent Engine.number_compare.
Proof.
  destruct Consistent_Q as [Ha Ht He].
  constructor.
  - intros [|x] [|y]; cbn; try reflexivity. apply Ha.
  - intros [|x] [|y] [|z]; cbn; try congruence. apply Ht.
  - intros [|x] [|y] [|z]; cbn; try congruence. apply He.
Qed.

Lemma Consistent_string : Consistent String.compare.
Proof.
  constructor.
  - intros a b. apply String.compare_antisym.
  - intros a b c Hab Hbc.
    apply OrderedTypeEx.String_as_OT.cmp_lt.
    apply OrderedTypeEx.String_as_OT.cmp_lt in Hab, Hbc.
    eapply OrderedTypeEx.String_as_OT.lt_trans; eassumption.
  - intros a b c Hab. apply String.compare_eq_iff in Hab. subst. reflexivity.
Qed.

Lemma Consistent_value : Consistent Engine.value_compare.
Proof.
  destruct Consistent_number as [Na Nt Ne].
  destruct Consistent_string as [Sa St Se].
  constructor.
  - intros [[]|] [[]|]; cbn; try reflexivity; [apply Na | apply Sa].
  - intros [[]|] [[]|] [[]|]; cbn; try congruence; [apply Nt | apply St].
  - intros [[]|] [[]|] [[]|]; cbn; try congruence; [apply Ne | apply Se].
Qed.

Lemma Consistent_key (k : string * Z) : Consistent (Engine.key_compare k).
Proof.
  unfold Engine.key_compare.
  pose proof (Consistent_on (field (fst k)) _ Consistent_value) as Hf.
  destruct (snd k <? 0)%Z; [apply Consistent_opp|]; exact Hf.
Qed.

Lemma Consistent_sort (keys : list (string * Z)) : Consistent (Engine.sort_compare keys).
Proof.
  induction keys as [|k keys IH].
  - apply Consistent_trivial.
  - apply (Consistent_lex _ _ (Consistent_key k) IH).
Qed.

Lemma sort_le_total (keys : list (string * Z)) (a b : doc) :
  Engine.sort_le keys a b = false -> Engine.sort_le keys b a = true.
Proof.
  unfold Engine.sort_le. intros Hab.
  destruct (Engine.sort_compare keys a b) eqn:Eab; try discriminate.
  rewrite (cmp_gt_lt _ (Consistent_sort keys) a b Eab). reflexivity.
Qed.

Lemma sort_le_trans (keys : list (string * Z)) (a b c : doc) :
  Engine.sort_le keys a b = true -> Engine.sort_le keys b c = true ->
  Engine.sort_le keys a c = true.
Proof.
  unfold Engine.sort_le. intros Hab Hbc.
  pose proof (cmp_le_trans _ (Consistent_sort keys) a b c) as Ht.
  destruct (Engine.sort_compare keys a b); try discriminate;
    destruct (Engine.sort_compare keys b c); try discriminate;
    destruct (Engine.sort_compare keys a c); try reflexivity;
    exfalso; apply Ht; congruence.
Qed.

(** The order of the statistics sort, spelled out. *)
Lemma sort_le_stats_order (a b : doc) :
  Engine.sort_le stats_sort a b = true -> stats_order a b.
Proof.
  unfold Engine.sort_le, stats_sort, stats_order, higher, same. cbn.
  unfold Engine.key_compare. cbn.
  destruct (Engine.value_compare (field "numRestaurants" a) (field "numRestaurants" b));
    cbn; try discriminate; auto.
  destruct (Engine.value_compare (field "numRatings" a) (field "numRatings" b));
    cbn; try discriminate; auto.
  destruct (Engine.value_compare (field "avgRating" a) (field "avgRating" b));
    cbn; try discriminate; auto 10.
Qed.

Lemma StronglySorted_impl {A : Type} (R S : A -> A -> Prop) (l : list A) :
  (forall a b, R a b -> S a b) -> StronglySorted R l -> StronglySorted S l.
Proof.
  intros HRS Hs. rewrite <- (map_id l).
  apply (StronglySorted_map_impl R S (fun x => x)); assumption.
Qed.

Lemma stats_sort_sorted (rows : list doc) :
  StronglySorted stats_order (Engine.sort_by (Engine.sort_le stats_sort) rows).
Proof.
  eapply StronglySorted_impl; [apply sort_le_stats_order|].
  apply sort_by_sorted; [apply sort_le_total | apply sort_le_trans].
Qed.

(** ** Grouping *)

Lemma add_to_group_keys (key : string) (d : doc) (gs : list (string * list doc)) (k : string) :
  In k (map fst (Engine.add_to_group key d gs)) <-> k = key \/ In k (map fst gs).
Proof.
  induction gs as [|[k0 ds0] gs IH]; cbn.
  - intuition.
  - destruct (String.eqb k0 key) eqn:Hk; cbn.
    + apply String.eqb_eq in Hk. subst k0. intuition.
    + rewrite IH. intuition.
Qed.

Lemma add_to_group_NoDup (key : string) (d : doc) (gs : list (string * list doc)) :
  NoDup (map fst gs) -> NoDup (map fst (Engine.add_to_group key d gs)).
Proof.
  induction gs as [|[k0 ds0] gs IH]; cbn; intros Hnd.
  - constructor; [intros []|constructor].
  - inversion Hnd as [|k l Hnotin Hnd']; subst.
    destruct (String.eqb k0 key) eqn:Hk; cbn.
    + exact Hnd.
    + constructor; [|apply IH; exact Hnd'].
      rewrite add_to_group_keys. intros [Heq|Hin]; [|contradiction].
      subst k0. rewrite String.eqb_refl in Hk. discriminate.
Qed.

Lemma add_to_group_members (key : string) (d : doc) (gs : list (string * list doc))
    (g : string * list doc) :
  NoDup (map fst gs) ->
  In g (Engine.add_to_group key d gs) ->
  (fst g <> key /\ In g gs)
  \/ (fst g = key
      /\ ((exists ds, In (key, ds) gs /\ snd g = ds ++ [d])
          \/ (snd g = [d] /\ ~ In key (map fst gs)))).
Proof.
  induction gs as [|[k0 ds0] gs IH]; cbn; intros Hnd Hin.
  - destruct Hin as [Heq|[]]. subst g. right. split; [reflexivity|].
    right. split; [reflexivity|]. intros [].
  - inversion Hnd as [|k l Hnotin Hnd']; subst.
    destruct (String.eqb k0 key) eqn:Hk.
    + apply String.eqb_eq in Hk. subst k0.
      destruct Hin as [Heq|Hin].
      * subst g. right. split; [reflexivity|]. left. exists ds0. split; [left|]; reflexivity.
      * left. split; [|right; exact Hin].
        intros Heq. apply Hnotin. rewrite <- Heq. apply in_map. exact Hin.
    + apply String.eqb_neq in Hk.
      destruct Hin as [Heq|Hin].
      * subst g. left. split; [exact Hk | left; reflexivity].
      * destruct (IH Hnd' Hin) as [[Hne Hg]|[Heq [[ds [Hds Hsnd]]|[Hsnd Hnew]]]].
        -- left. split; [exact Hne | right; exact Hg].
        -- right. split; [exact Heq|]. left. exists ds. split; [right; exact Hds | exact Hsnd].
        -- right. split; [exact Heq|]. right. split; [exact Hsnd|].
           intros [Hhead|Htail]; [apply Hk; exact Hhead | apply Hnew; exact Htail].
Qed.

Lemma keyed_members_snoc (key k : string) (d : doc) (kds : list (string * doc)) :
  keyed_members key (kds ++ [(k, d)])
  = keyed_members key kds ++ (if String.eqb k key then [d] else []).
Proof.
  unfold keyed_members. rewrite filter_app, map_app. cbn.
  destruct (String.eqb k key); reflexivity.
Qed.

Lemma keyed_members_nil (key : string) (kds : list (string * doc)) :
  (forall kd, In kd kds -> fst kd <> key) -> keyed_members key kds = [].
Proof.
  unfold keyed_members. induction kds as [|kd kds IH]; cbn; intros Hne; [reflexivity|].
  destruct (String.eqb (fst kd) key) eqn:Hk.
  - apply String.eqb_eq in Hk. exfalso. apply (Hne kd); [left; reflexivity | exact Hk].
  - apply IH. intros kd' Hin. apply Hne. right. exact Hin.
Qed.

Lemma partitions_add (kds : list (string * doc)) (gs : list (string * list doc))
    (key : string) (d : doc) :
  partitions kds gs ->
  partitions (kds ++ [(key, d)]) (Engine.add_to_group key d gs).
Proof.
  intros [Hnd [Hgroups Hall]]. split; [|split].
  - apply add_to_group_NoDup. exact Hnd.
  - intros g Hin. rewrite keyed_members_snoc.
    destruct (add_to_group_members key d gs g Hnd Hin)
      as [[Hne Hg]|[Heq [[ds [Hds Hsnd]]|[Hsnd Hnew]]]].
    + destruct (Hgroups g Hg) as [Hms Hnonempty].
      assert (Hk : String.eqb key (fst g) = false).
      { apply String.eqb_neq. intros Heq. apply Hne. symmetry. exact Heq. }
      rewrite Hk, app_nil_r. split; assumption.
    + destruct (Hgroups (key, ds) Hds) as [Hms _]. cbn in Hms.
      rewrite Heq, String.eqb_refl, Hsnd, Hms. split; [reflexivity|].
      intros Hnil. apply app_eq_nil in Hnil. destruct Hnil as [_ Hnil]. discriminate.
    + rewrite Heq, String.eqb_refl, Hsnd.
      rewrite keyed_members_nil; [split; [reflexivity | discriminate]|].
      intros kd Hkd Hfst. apply Hnew. rewrite <- Hfst. apply Hall. exact Hkd.
  - intros kd Hin. rewrite add_to_group_keys.
    apply in_app_or in Hin. destruct Hin as [Hin|[Heq|[]]].
    + right. apply Hall. exact Hin.
    + subst kd. left. reflexivity.
Qed.

Lemma group_by_partitions (kds : list (string * doc)) :
  partitions kds (Engine.group_by kds).
Proof.
  induction kds as [|[key d] kds IH] using rev_ind.
  - split; [constructor|]. split; [intros g []|intros kd []].
  - unfold Engine.group_by. rewrite fold_left_app. cbn.
    apply partitions_add. exact IH.
Qed.

Lemma keyed_members_spec `{Externals} (kx : keyExpr) (docs : list doc)
    (kds : list (string * doc)) (key : string) :
  Engine.keyed kx docs = Resolved kds ->
  keyed_members key kds = members kx key docs.
Proof.
  revert kds. induction docs as [|d docs IH]; intros kds Hk; cbn in Hk.
  - inversion Hk. reflexivity.
  - destruct (Engine.eval_key kx d) as [k|e] eqn:Hd; [|discriminate].
    destruct (Engine.keyed kx docs) as [rest|e]; [|discriminate].
    inversion Hk; subst kds.
    unfold members. cbn [List.filter]. fold (members kx key docs).
    rewrite <- (IH rest eq_refl).
    unfold has_key. rewrite Hd. unfold keyed_members. cbn.
    destruct (String.eqb k key); reflexivity.
Qed.

Lemma keyed_In `{Externals} (kx : keyExpr) (docs : list doc) (kds : list (string * doc))
    (d : doc) (key : string) :
  Engine.keyed kx docs = Resolved kds ->
  In d docs -> Engine.eval_key kx d = Resolved key -> In (key, d) kds.
Proof.
  revert kds. induction docs as [|d0 docs IH]; cbn; intros kds Hk Hin Hkey; [destruct Hin|].
  destruct (Engine.eval_key kx d0) as [k|e] eqn:Hd; [|discriminate].
  destruct (Engine.keyed kx docs) as [rest|e]; [|discriminate].
  inversion Hk; subst kds. destruct Hin as [Heq|Hin].
  - subst d0. rewrite Hkey in Hd. inversion Hd. left. reflexivity.
  - right. apply (IH rest eq_refl Hin Hkey).
Qed.

(** [$sum: 1] counts the documents of the group. *)
Lemma count_of_ones (ms : list doc) :
  exists count : Q,
    Engine.total (Engine.numeric_values (Const 1) ms) = Num count
    /\ (count == inject_Z (Z.of_nat (length ms)))%Q.
Proof.
  induction ms as [|d ms [count [Hsum Hcount]]].
  - exists 0%Q. split; reflexivity.
  - exists (1 + count)%Q. split.
    + cbn. cbn in Hsum. unfold Engine.total in Hsum. rewrite Hsum. reflexivity.
    + rewrite Hcount. cbn [length]. rewrite Nat2Z.inj_succ.
      unfold Z.succ. rewrite inject_Z_plus. ring.
Qed.

Lemma group_row_is_stats_row `{Externals} (kx : keyExpr) (docs : list doc)
    (kds : list (string * doc)) (g : string * list doc) :
  Engine.keyed kx docs = Resolved kds ->
  In g (Engine.group_by kds) ->
  is_stats_row kx docs (Engine.group_row stats_accumulators g).
Proof.
  intros Hk Hin.
  destruct (group_by_partitions kds) as [_ [Hgroups _]].
  destruct (Hgroups g Hin) as [Hms Hnonempty].
  rewrite (keyed_members_spec kx docs kds (fst g) Hk) in Hms.
  destruct (count_of_ones (snd g)) as [count [Hsum Hcount]].
  exists (fst g), count. cbn zeta. rewrite <- Hms.
  split; [exact Hnonempty|]. split; [exact Hcount|].
  unfold Engine.group_row, stats_accumulators. cbn [map fst snd Engine.eval_acc].
  rewrite Hsum.
  destruct (Engine.numeric_values (FieldPath "ratingsAverage") (snd g)); reflexivity.
Qed.

Lemma group_row_id (accs : list (string * accumulator)) (g : string * list doc) :
  field "_id" (Engine.group_row accs g) = Some (VStr (fst g)).
Proof. reflexivity. Qed.

(** The grouping stage followed by the statistics sort yields the statistics
    table of its input. *)
Lemma group_then_sort_table `{Externals} (kx : keyExpr) (docs rows : list doc) :
  Engine.group kx stats_accumulators docs = Resolved rows ->
  stats_table kx docs (Engine.sort_by (Engine.sort_le stats_sort) rows).
Proof.
  unfold Engine.group. destruct (Engine.keyed kx docs) as [kds|e] eqn:Hk; [|discriminate].
  intros Hrows. inversion Hrows; subst rows. clear Hrows.
  pose proof (sort_by_perm (Engine.sort_le stats_sort)
                (map (Engine.group_row stats_accumulators) (Engine.group_by kds))) as Hperm.
  destruct (group_by_partitions kds) as [Hnd [Hgroups Hall]].
  split; [|split; [|split]].
  - eapply Permutation_Forall; [exact Hperm|].
    apply Forall_map. apply Forall_forall. intros g Hg.
    apply (group_row_is_stats_row kx docs kds g Hk Hg).
  - intros d key Hd Hkey.
    pose proof (Hall (key, d) (keyed_In kx docs kds d key Hk Hd Hkey)) as Hin.
    cbn in Hin. apply in_map_iff in Hin. destruct Hin as [g [Hfst Hg]].
    exists (Engine.group_row stats_accumulators g). split.
    + eapply Permutation_in; [exact Hperm|]. apply in_map. exact Hg.
    + rewrite group_row_id, Hfst. reflexivity.
  - eapply Permutation_NoDup; [apply Permutation_map; exact Hperm|].
    rewrite map_map.
    rewrite (map_ext _ (fun g => Some (VStr (fst g)))) by (intros g; apply group_row_id).
    rewrite <- (map_map fst (fun k => Some (VStr k))).
    apply Finite.Injective_map_NoDup; [|exact Hnd].
    intros x y Hxy. inversion Hxy. reflexivity.
  - apply stats_sort_sorted.
Qed.

(** ** Statistics handlers *)

(** The grouping stage resolves whenever every key field is a string, null
    or missing. *)
Lemma keyed_resolves `{Externals} (name : string) (docs : list doc) :
  Forall (fun d => match field name d with
                   | None | Some VNull | Some VUndef | Some (VStr _) => True
                   | _ => False
                   end) docs ->
  exists kds, Engine.keyed (ToUpper name) docs = Resolved kds.
Proof.
  induction 1 as [|d docs Hd _ [kds IH]]; cbn.
  - eexists. reflexivity.
  - rewrite IH. destruct (field name d) as [[]|]; try contradiction; eexists; reflexivity.
Qed.

(** C6.  With the model layer answering as the engine does over a
    collection, whenever the aggregation resolves the statistics handlers
    respond 200 with its result, and that result is the statistics table of
    the collection grouped by upper-cased suburb, respectively of the
    collection unwound on [cuisine] grouped by upper-cased cuisine: one row
    per key, holding the number of documents under the key, the sum of their
    [ratingsQuantity] and the average of their [ratingsAverage], the rows
    sorted descending by count, then by ratings count, then by average.
    Unwinding turns a document with a cuisine array into one row per tag. *)
Theorem C6_statistics `{Externals} (req : Request) (o : oracle) (coll : list doc) :
  aggregates_over o coll ->
  (forall stats,
      Engine.aggregate suburb_pipeline coll = Resolved stats ->
      getStatsBySuburb req o =
        [Called (Restaurant.aggregate
                   [Group (ToUpper "suburb") stats_accumulators; SortBy stats_sort]);
         Responded 200 (VObj [("status", VStr "success"); ("data", VArr (map VObj stats))])]
      /\ stats_table (ToUpper "suburb") coll stats)
  /\ (forall stats,
      Engine.aggregate cuisine_pipeline coll = Resolved stats ->
      getStatsByCuisine req o =
        [Called (Restaurant.aggregate
                   [Unwind "cuisine"; Group (ToUpper "cuisine") stats_accumulators;
                    SortBy stats_sort]);
         Responded 200 (VObj [("status", VStr "success"); ("data", VArr (map VObj stats))])]
      /\ stats_table (ToUpper "cuisine") (flat_map (Engine.unwind "cuisine") coll) stats)
  /\ (forall d tags,
        field "cuisine" d = Some (VArr tags) ->
        Engine.unwind "cuisine" d = map (fun tag => set_field "cuisine" tag d) tags
        /\ map (field "cuisine") (Engine.unwind "cuisine" d) = map Some tags)
  /\ (forall name d s,
        field name d = Some (VStr s) ->
        Engine.eval_key (ToUpper name) d = Resolved (Engine.toUpper s)).
Proof.
  intros Hagg. split; [|split; [|split]].
  - intros stats Hstats. split.
    + unfold getStatsBySuburb, asyncHandler. cbn.
      rewrite (Hagg suburb_pipeline), Hstats. reflexivity.
    + unfold suburb_pipeline in Hstats. cbn in Hstats.
      destruct (Engine.group (ToUpper "suburb") stats_accumulators coll) as [rows|e] eqn:Hg;
        [|discriminate].
      inversion Hstats; subst stats.
      apply group_then_sort_table. exact Hg.
  - intros stats Hstats. split.
    + unfold getStatsByCuisine, asyncHandler. cbn.
      rewrite (Hagg cuisine_pipeline), Hstats. reflexivity.
    + unfold cuisine_pipeline in Hstats. cbn in Hstats.
      destruct (Engine.group (ToUpper "cuisine") stats_accumulators
                  (flat_map (Engine.unwind "cuisine") coll)) as [rows|e] eqn:Hg;
        [|discriminate].
      inversion Hstats; subst stats.
      apply group_then_sort_table. exact Hg.
  - intros d tags Hd. unfold Engine.unwind. rewrite Hd. split; [reflexivity|].
    rewrite map_map. apply map_ext. intros tag. apply field_set_field_same.
  - intros name d s Hd. cbn. rewrite Hd. reflexivity.
Qed.

(* ================================================================== *)
(** * The properties at concrete requests *)

(** Get-one over the sample collection: an unknown identifier, then a known
    one. *)
Lemma C7_getRestaurant_witness :
  let o := Sample.model Sample.collection in
  let missing := Sample.request [("id", "r9")] in
  let present := Sample.request [("id", "r2")] in
  let wharf := Sample.restaurant "r2" "Wharf Bar" "Manly" ["Seafood"] 151 (-31) 4 7 in
  (o (by_id_populated missing) = Resolved None
   /\ getRestaurant missing o
      = [Called (Restaurant.findById (Some "r9")
                   (Some {| path := "reviews"; select := "review rating" |}));
         Forwarded (AppError "A restaurant with the id of 'r9' is not found." 404)]
   /\ responses (getRestaurant missing o) = [])
  /\ (o (by_id_populated present) = Resolved (Some wharf)
      /\ getRestaurant present o
         = [Called (by_id_populated present);
            Responded 200 (VObj [("status", VStr "success"); ("data", VObj wharf)])]).
Proof.
  cbv zeta. split.
  - split; [reflexivity|].
    apply (proj1 (C7_getRestaurant (Sample.request [("id", "r9")])
                    (Sample.model Sample.collection))).
    reflexivity.
  - split; [reflexivity|].
    apply (proj2 (C7_getRestaurant (Sample.request [("id", "r2")])
                    (Sample.model Sample.collection))).
    reflexivity.
Defined.

(** Update over the sample collection. *)
Lemma C8_updateRestaurant_witness :
  let o := Sample.model Sample.collection in
  let patch := VObj [("name", VStr "Wharf Bar and Grill")] in
  let missing := {| params := [("id", "r9")]; body := patch; advancedQuery := VNull |} in
  let present := {| params := [("id", "r2")]; body := patch; advancedQuery := VNull |} in
  let updated := Sample.restaurant "r2" "Wharf Bar and Grill" "Manly" ["Seafood"] 151 (-31) 4 7 in
  calls (updateRestaurant present o)
    = [Restaurant.findByIdAndUpdate (Some "r2") patch {| new := true; runValidators := true |}]
  /\ (o (update_by_id missing) = Resolved None
      /\ updateRestaurant missing o = [Called (update_by_id missing); not_found missing])
  /\ (o (update_by_id present) = Resolved (Some updated)
      /\ updateRestaurant present o
         = [Called (update_by_id present);
            Responded 200 (VObj [("status", VStr "success"); ("data", VObj updated)])]).
Proof.
  cbv zeta. split; [|split].
  - apply (C8_updateRestaurant
             {| params := [("id", "r2")];
                body := VObj [("name", VStr "Wharf Bar and Grill")];
                advancedQuery := VNull |}
             (Sample.model Sample.collection)).
  - split; [reflexivity|].
    apply (proj1 (proj2 (C8_updateRestaurant
             {| params := [("id", "r9")];
                body := VObj [("name", VStr "Wharf Bar and Grill")];
                advancedQuery := VNull |}
             (Sample.model Sample.collection)))).
    reflexivity.
  - split; [reflexivity|].
    apply (proj2 (proj2 (C8_updateRestaurant
             {| params := [("id", "r2")];
                body := VObj [("name", VStr "Wharf Bar and Grill")];
                advancedQuery := VNull |}
             (Sample.model Sample.collection)))).
    reflexivity.
Defined.

(** Delete over the sample collection. *)
Lemma C9_deleteRestaurant_witness :
  let o := Sample.model Sample.collection in
  let missing := Sample.request [("id", "r9")] in
  let present := Sample.request [("id", "r2")] in
  let wharf := Sample.restaurant "r2" "Wharf Bar" "Manly" ["Seafood"] 151 (-31) 4 7 in
  (o (by_id missing) = Resolved None
   /\ deleteRestaurant missing o = [Called (by_id missing); not_found missing]
   /\ forall d, ~ In (Restaurant.remove d) (calls (deleteRestaurant missing o)))
  /\ (o (by_id present) = Resolved (Some wharf)
      /\ deleteRestaurant present o
         = [Called (Restaurant.findById (Some "r2") None);
            Called (Restaurant.remove wharf);
            Responded 200 (VObj [("status", VStr "success"); ("data", VObj wharf)])]).
Proof.
  cbv zeta. split.
  - split; [reflexivity|].
    apply (proj1 (C9_deleteRestaurant (Sample.request [("id", "r9")])
                    (Sample.model Sample.collection))).
    reflexivity.
  - split; [reflexivity|].
    apply (proj2 (C9_deleteRestaurant (Sample.request [("id", "r2")])
                    (Sample.model Sample.collection))).
    reflexivity.
Defined.

(** The same radius search when the model layer rejects the query: both
    checks fail, the query is still issued, and the rejection is forwarded. *)
Example getRestaurantsWithin_rejected :
  @getRestaurantsWithin Sample.externals
    (Sample.request [("distance", "10"); ("unit", "furlong"); ("latlng", "-33")])
    Sample.failing
  = [Forwarded (AppError "Please provide latitude and longitude of a point" 400);
     Forwarded (AppError "Please provide unit in km(kilometres) or mi(miles)" 400);
     Called (Restaurant.find
               (GeoWithinCenterSphere "location" (VUndef, VStr "-33") (Num (10 / 3963.2))));
     Forwarded (DriverError "connection lost")].
Proof. reflexivity. Qed.

(** A radius search with no longitude and an unknown unit. *)
Lemma C1_validation_does_not_halt_witness :
  let o := Sample.model Sample.collection in
  let req := Sample.request [("distance", "10"); ("unit", "furlong"); ("latlng", "-33")] in
  param req "latlng" = Some "-33"
  /\ fails_validation (param req "unit") "-33" = true
  /\ (exists pre,
        pre <> [] /\ Forall bad_request pre /\
        @getRestaurantsWithin Sample.externals req o =
          pre ++ Called (@within_call Sample.externals (Some "10") (Some "furlong") "-33")
              :: within_outcome
                   (o (@within_call Sample.externals (Some "10") (Some "furlong") "-33")))
  /\ (exists pre,
        pre <> [] /\ Forall bad_request pre /\
        @getDistances Sample.externals req o =
          pre ++ Called (@distances_call Sample.externals (Some "furlong") "-33")
              :: distances_outcome
                   (o (@distances_call Sample.externals (Some "furlong") "-33"))).
Proof.
  cbv zeta. split; [reflexivity|]. split; [reflexivity|].
  apply (@C1_validation_does_not_halt Sample.externals
           (Sample.request [("distance", "10"); ("unit", "furlong"); ("latlng", "-33")])
           (Sample.model Sample.collection) "-33"); reflexivity.
Defined.

(** A ten-kilometre and a ten-mile radius search. *)
Lemma C4_radius_and_center_witness :
  let o := Sample.model Sample.collection in
  let km := Sample.request [("distance", "10"); ("unit", "km"); ("latlng", "-33.873,151.207")] in
  let mi := Sample.request [("distance", "10"); ("unit", "mi"); ("latlng", "-33.873,151.207")] in
  (param km "latlng" = Some "-33.873,151.207" /\ param km "unit" = Some "km"
   /\ calls (@getRestaurantsWithin Sample.externals km o)
      = [Restaurant.find
           (GeoWithinCenterSphere "location" (VStr "151.207", VStr "-33.873")
              (Num (10 / 6378.16)))])
  /\ (param mi "latlng" = Some "-33.873,151.207" /\ param mi "unit" = Some "mi"
      /\ calls (@getRestaurantsWithin Sample.externals mi o)
         = [Restaurant.find
              (GeoWithinCenterSphere "location" (VStr "151.207", VStr "-33.873")
                 (Num (10 / 3963.2)))]).
Proof.
  cbv zeta. split.
  - split; [reflexivity|]. split; [reflexivity|].
    apply (proj1 (@C4_radius_and_center Sample.externals
             (Sample.request [("distance", "10"); ("unit", "km"); ("latlng", "-33.873,151.207")])
             (Sample.model Sample.collection) "-33.873,151.207" eq_refl)).
    reflexivity.
  - split; [reflexivity|]. split; [reflexivity|].
    apply (proj2 (@C4_radius_and_center Sample.externals
             (Sample.request [("distance", "10"); ("unit", "mi"); ("latlng", "-33.873,151.207")])
             (Sample.model Sample.collection) "-33.873,151.207" eq_refl)).
    reflexivity.
Defined.

(** A radius search in furlongs is answered as one in miles. *)
Lemma C10_unknown_unit_queries_as_miles_witness :
  let o := Sample.model Sample.collection in
  let req := Sample.request [("distance", "10"); ("unit", "furlong"); ("latlng", "-33,151")] in
  param req "latlng" = Some "-33,151"
  /\ strict_neq (param req "unit") "km" = true
  /\ strict_neq (param req "unit") "mi" = true
  /\ @radius_of Sample.externals (param req "unit") (param req "distance")
     = num_div (@ToNumber Sample.externals (param req "distance")) (Num 3963.2)
  /\ calls (@getRestaurantsWithin Sample.externals req o)
     = [Restaurant.find
          (GeoWithinCenterSphere "location" (js (lng_of "-33,151"), js (lat_of "-33,151"))
             (num_div (@ToNumber Sample.externals (param req "distance")) (Num 3963.2)))]
  /\ exists pre rest,
       @getRestaurantsWithin Sample.externals req o
       = pre ++ Forwarded (AppError unit_message 400) :: rest
       /\ @getRestaurantsWithin Sample.externals (with_unit "mi" req) o = pre ++ rest
       /\ In (Called (@within_call Sample.externals (param req "distance") (Some "mi") "-33,151"))
             rest.
Proof.
  cbv zeta. split; [reflexivity|]. split; [reflexivity|]. split; [reflexivity|].
  apply (@C10_unknown_unit_queries_as_miles Sample.externals
           (Sample.request [("distance", "10"); ("unit", "furlong"); ("latlng", "-33,151")])
           (Sample.model Sample.collection) "-33,151"); reflexivity.
Defined.

Lemma sample_model_aggregates (coll : list doc) :
  @aggregates_over Sample.externals (Sample.model coll) coll.
Proof. intros p. reflexivity. Defined.

(** A distances request in kilometres over the sample collection. *)
Lemma C5_getDistances_witness :
  let o := Sample.model Sample.collection in
  let req := Sample.request [("latlng", "-33,151"); ("unit", "km")] in
  let near := @near_point Sample.externals (lng_of "-33,151") (lat_of "-33,151") in
  param req "latlng" = Some "-33,151"
  /\ valid_geo_request (param req "unit") "-33,151"
  /\ @aggregates_over Sample.externals o Sample.collection
  /\ exists rows : list doc,
       @getDistances Sample.externals req o =
         [Called (Restaurant.aggregate
                    [GeoNear near "distance" (Num 0.001); Project ["name"; "distance"]]);
          Responded 200 (VObj [("status", VStr "success"); ("data", VArr (map VObj rows))])]
       /\ Forall (fun row =>
                    exists (d : doc) (meters : Q),
                      In d Sample.collection
                      /\ @geoDistance Sample.externals near d = Some meters
                      /\ field "distance" row = Some (VNum (Num (meters * 0.001)))
                      /\ field "name" row = field "name" d
                      /\ forall k v, In (k, v) row ->
                                     k = "_id" \/ k = "name" \/ k = "distance") rows
       /\ length rows = length (@Engine.located Sample.externals near Sample.collection)
       /\ nearest_first rows.
Proof.
  cbv zeta.
  assert (Hvalid : valid_geo_request
                     (param (Sample.request [("latlng", "-33,151"); ("unit", "km")]) "unit")
                     "-33,151").
  { split; [reflexivity|]. split; [reflexivity|]. left. reflexivity. }
  split; [reflexivity|]. split; [exact Hvalid|].
  split; [apply sample_model_aggregates|].
  apply (@C5_getDistances Sample.externals
           (Sample.request [("latlng", "-33,151"); ("unit", "km")])
           (Sample.model Sample.collection) Sample.collection "-33,151"
           eq_refl Hvalid (sample_model_aggregates Sample.collection)).
Defined.

(** The two units over the sample collection, from one point. *)
Lemma C3_miles_times_factor_is_km_witness :
  let o := Sample.model Sample.collection in
  let req := Sample.request [("latlng", "-33,151")] in
  let km := response_data (@getDistances Sample.externals (with_unit "km" req) o) in
  let mi := response_data (@getDistances Sample.externals (with_unit "mi" req) o) in
  param req "latlng" = Some "-33,151"
  /\ truthy (lat_of "-33,151") = true
  /\ truthy (lng_of "-33,151") = true
  /\ @aggregates_over Sample.externals o Sample.collection
  /\ length km
     = length (@Engine.located Sample.externals
                 (@near_point Sample.externals (lng_of "-33,151") (lat_of "-33,151"))
                 Sample.collection)
  /\ Forall2 (fun x y => exists meters : Q,
                 row_distance x = Some (meters * 0.001)%Q
                 /\ row_distance y = Some (meters * 0.000621371)%Q) km mi
  /\ scaled_by 1.609344 float_tolerance mi km.
Proof.
  cbv zeta. split; [reflexivity|]. split; [reflexivity|]. split; [reflexivity|].
  split; [apply sample_model_aggregates|].
  apply (@C3_miles_times_factor_is_km Sample.externals
           (Sample.request [("latlng", "-33,151")])
           (Sample.model Sample.collection) Sample.collection "-33,151"
           eq_refl eq_refl eq_refl (sample_model_aggregates Sample.collection)).
Defined.

(** The statistics of the sample collection: three restaurants under
    ["BONDI"] (spelt three ways) and one under ["MANLY"]. *)
Lemma C6_statistics_witness :
  let o := Sample.model Sample.collection in
  let req := Sample.request [] in
  let by_suburb : list doc :=
    [ [("_id", VStr "BONDI"); ("numRestaurants", VNum (Num 3));
       ("numRatings", VNum (Num 15)); ("avgRating", VNum (Num (1300 # 300)))];
      [("_id", VStr "MANLY"); ("numRestaurants", VNum (Num 1));
       ("numRatings", VNum (Num 7)); ("avgRating", VNum (Num 4))] ] in
  let by_cuisine : list doc :=
    [ [("_id", VStr "SEAFOOD"); ("numRestaurants", VNum (Num 2));
       ("numRatings", VNum (Num 17)); ("avgRating", VNum (Num (85 # 20)))];
      [("_id", VStr "CAFE"); ("numRestaurants", VNum (Num 2));
       ("numRatings", VNum (Num 5)); ("avgRating", VNum (Num (85 # 20)))];
      [("_id", VStr "ITALIAN"); ("numRestaurants", VNum (Num 1));
       ("numRatings", VNum (Num 10)); ("avgRating", VNum (Num 4.5))];
      [("_id", VStr "DELI"); ("numRestaurants", VNum (Num 1));
       ("numRatings", VNum (Num 1)); ("avgRating", VNum (Num 5))] ] in
  @aggregates_over Sample.externals o Sample.collection
  /\ (@Engine.aggregate Sample.externals suburb_pipeline Sample.collection = Resolved by_suburb
      /\ getStatsBySuburb req o =
           [Called (Restaurant.aggregate suburb_pipeline);
            Responded 200
              (VObj [("status", VStr "success"); ("data", VArr (map VObj by_suburb))])]
      /\ @stats_table Sample.externals (ToUpper "suburb") Sample.collection by_suburb)
  /\ (@Engine.aggregate Sample.externals cuisine_pipeline Sample.collection = Resolved by_cuisine
      /\ getStatsByCuisine req o =
           [Called (Restaurant.aggregate cuisine_pipeline);
            Responded 200
              (VObj [("status", VStr "success"); ("data", VArr (map VObj by_cuisine))])]
      /\ @stats_table Sample.externals (ToUpper "cuisine")
           (flat_map (Engine.unwind "cuisine") Sample.collection) by_cuisine)
  /\ (let lox := Sample.restaurant "r4" "Lox" "BONDI" ["cafe"; "Deli"] 154 (-33) 5 1 in
      field "cuisine" lox = Some (VArr [VStr "cafe"; VStr "Deli"])
      /\ map (field "cuisine") (Engine.unwind "cuisine" lox) = [Some (VStr "cafe"); Some (VStr "Deli")]
      /\ @Engine.eval_key Sample.externals (ToUpper "suburb")
           (Sample.restaurant "r3" "Bills" "bondi" ["Cafe"] 151 (-33.5) 3.5 4)
         = Resolved "BONDI").
Proof.
  cbv zeta.
  pose proof (@C6_statistics Sample.externals (Sample.request [])
                (Sample.model Sample.collection) Sample.collection
                (sample_model_aggregates Sample.collection))
    as [Hsuburb [Hcuisine [Hunwind Hkey]]].
  split; [apply sample_model_aggregates|]. split; [|split].
  - split; [reflexivity|]. apply Hsuburb. reflexivity.
  - split; [reflexivity|]. apply Hcuisine. reflexivity.
  - split; [reflexivity|]. split.
    + apply (Hunwind _ [VStr "cafe"; VStr "Deli"]). reflexivity.
    + apply (Hkey "suburb" _ "bondi"). reflexivity.
Defined.

(* ================================================================== *)
(** * Further properties of the router *)

Lemma match_prefix_lengths (pat : list piece) (segs : list string)
    (bound : list (string * string)) (rest : list string) :
  match_prefix pat segs = Some (bound, rest) ->
  length segs = (length pat + length rest)%nat.
Proof.
  revert segs bound. induction pat as [|p pat IH]; intros segs bound Hm.
  - cbn in Hm. inversion Hm. reflexivity.
  - destruct segs as [|seg segs]; cbn in Hm; [discriminate|].
    destruct (match_piece p seg) as [b|]; [|discriminate].
    destruct (match_prefix pat segs) as [[more rest']|] eqn:Hrec; [|discriminate].
    inversion Hm; subst. cbn. f_equal. apply (IH segs more Hrec).
Qed.

Lemma match_whole_length (pat : list piece) (segs : list string)
    (bound : list (string * string)) :
  match_whole pat segs = Some bound -> length segs = length pat.
Proof.
  unfold match_whole.
  destruct (match_prefix pat segs) as [[b rest]|] eqn:Hm; [|discriminate].
  destruct rest; [|discriminate]. intros _.
  rewrite (match_prefix_lengths _ _ _ _ Hm). cbn. lia.
Qed.

(** The layer that takes a request, with what it matched. *)
Lemma dispatch_layer (stack : list layer) (m : method) (segs : list string)
    (fns : list middleware) (ps : list (string * string)) :
  dispatch stack m segs = Some (fns, ps) ->
  exists l, In l stack /\
    match l with
    | Use pat target =>
        fns = [target] /\ exists rest, match_prefix pat segs = Some (ps, rest)
    | Route pat bs => binding m bs = Some fns /\ match_whole pat segs = Some ps
    end.
Proof.
  induction stack as [|l stack IH]; cbn; [discriminate|].
  intros Hd.
  assert (Hrest : dispatch stack m segs = Some (fns, ps) ->
                  exists l0, (l = l0 \/ In l0 stack) /\
                    match l0 with
                    | Use pat target =>
                        fns = [target] /\ exists rest, match_prefix pat segs = Some (ps, rest)
                    | Route pat bs =>
                        binding m bs = Some fns /\ match_whole pat segs = Some ps
                    end).
  { intros Hd'. destruct (IH Hd') as [l0 [Hin Hl0]]. exists l0. auto. }
  destruct l as [pat target | pat bs].
  - destruct (match_prefix pat segs) as [[bound rest]|] eqn:Hm; [|auto].
    inversion Hd; subst. exists (Use pat target). split; [left; reflexivity|].
    split; [reflexivity|]. exists rest. exact Hm.
  - destruct (match_whole pat segs) as [bound|] eqn:Hm; [|auto].
    destruct (binding m bs) as [fns'|] eqn:Hb; [|auto].
    inversion Hd; subst. exists (Route pat bs). split; [left; reflexivity|].
    split; assumption.
Qed.

(** The layers of the router, one by one. *)
Lemma router_layers (m : method) (segs : list string)
    (fns : list middleware) (ps : list (string * string)) :
  dispatch router m segs = Some (fns, ps) ->
  (fns = [reviewRouter])
  \/ (m = GET /\ fns = [controller GetRestaurantsWithin]
      /\ match_whole [Lit "within"; Par "distance"; Par "unit"; Lit "near"; Par "latlng"] segs
         = Some ps)
  \/ (m = GET /\ fns = [controller GetDistances]
      /\ match_whole [Lit "distances-from"; Par "latlng"; Lit "unit"; Par "unit"] segs = Some ps)
  \/ (segs = [] /\ ps = []
      /\ ((m = GET /\ fns = [advancedQuery_of "Restaurant"; controller GetAllRestaurants])
          \/ (m = POST /\ fns = [protect; restrictTo ["staff"; "owner"; "admin"];
                                 controller CreateRestaurant])))
  \/ (match_whole [Par "id"] segs = Some ps
      /\ ((m = GET /\ fns = [controller GetRestaurant])
          \/ (m = PATCH /\ fns = [protect; restrictTo ["staff"; "owner"; "admin"];
                                  controller UpdateRestaurant])
          \/ (m = DELETE /\ fns = [protect; restrictTo ["owner"; "admin"];
                                   controller DeleteRestaurant]))).
Proof.
  intros Hd. destruct (dispatch_layer _ _ _ _ _ Hd) as [l [Hin Hl]].
  cbn in Hin. destruct Hin as [Hin|[Hin|[Hin|[Hin|[Hin|[]]]]]]; subst l.
  - left. apply Hl.
  - right. left. destruct Hl as [Hb Hm]. destruct m; cbn in Hb; try discriminate.
    inversion Hb. auto.
  - right. right. left. destruct Hl as [Hb Hm]. destruct m; cbn in Hb; try discriminate.
    inversion Hb. auto.
  - right. right. right. left. destruct Hl as [Hb Hm].
    pose proof (match_whole_length _ _ _ Hm) as Hlen.
    destruct segs; [|discriminate]. cbn in Hm. inversion Hm.
    split; [reflexivity|]. split; [reflexivity|].
    destruct m; cbn in Hb; try discriminate; inversion Hb; auto.
  - right. right. right. right. destruct Hl as [Hb Hm]. split; [exact Hm|].
    destruct m; cbn in Hb; try discriminate; inversion Hb; auto.
Qed.

Lemma match_piece_par (name seg : string) (bound : list (string * string)) :
  match_piece (Par name) seg = Some bound -> seg <> "" /\ bound = [(name, seg)].
Proof.
  destruct seg; cbn; intros Hm; [discriminate|].
  inversion Hm. split; [discriminate | reflexivity].
Qed.

Lemma match_piece_lit (s seg : string) (bound : list (string * string)) :
  match_piece (Lit s) seg = Some bound -> toLower seg = toLower s /\ bound = [].
Proof.
  cbn. destruct (String.eqb (toLower s) (toLower seg)) eqn:He; [|discriminate].
  intros Hm. inversion Hm. apply String.eqb_eq in He. auto.
Qed.



(** X1.  A request reaches a mutating controller function only behind
    [protect] and [restrictTo], in that order and with nothing else in the
    chain: create on [POST /] and update on [PATCH /:id] for staff, owner and
    admin, delete on [DELETE /:id] for owner and admin only. *)
Theorem mutating_routes_guarded (m : method) (segs : list string)
    (fns : list middleware) (ps : list (string * string)) (a : action) :
  dispatch router m segs = Some (fns, ps) ->
  In (controller a) fns ->
  mutating a = true ->
  (a = CreateRestaurant /\ m = POST /\ segs = []
   /\ fns = [protect; restrictTo ["staff"; "owner"; "admin"]; controller CreateRestaurant])
  \/ (a = UpdateRestaurant /\ m = PATCH
      /\ fns = [protect; restrictTo ["staff"; "owner"; "admin"]; controller UpdateRestaurant])
  \/ (a = DeleteRestaurant /\ m = DELETE
      /\ fns = [protect; restrictTo ["owner"; "admin"]; controller DeleteRestaurant]).
Proof.
  intros Hd Hin Hmut.
  destruct (router_layers m segs fns ps Hd)
    as [Hf|[[Hm [Hf _]]|[[Hm [Hf _]]|[[Hs [_ [[Hm Hf]|[Hm Hf]]]]|[_ [[Hm Hf]|[[Hm Hf]|[Hm Hf]]]]]]]];
    subst fns; cbn in Hin;
    repeat (destruct Hin as [Hin|Hin]; [try discriminate; inversion Hin; subst a|]);
    try destruct Hin; try discriminate Hmut; auto 10.
Qed.




(* ================================================================== *)
(** * Router and controller together *)

Lemma getDistances_calls `{Externals} (req : Request) (o : oracle) (latlng : string) :
  param req "latlng" = Some latlng ->
  calls (getDistances req o) = [distances_call (param req "unit") latlng].
Proof.
  intros Hl. rewrite (getDistances_log req o latlng Hl).
  destruct (negb (truthy (lat_of latlng)) || negb (truthy (lng_of latlng)));
    destruct (strict_neq (param req "unit") "km" && strict_neq (param req "unit") "mi");
    destruct (o _); reflexivity.
Qed.

Lemma within_route_params (segs : list string) (ps : list (string * string)) :
  match_whole [Lit "within"; Par "distance"; Par "unit"; Lit "near"; Par "latlng"] segs
    = Some ps ->
  exists distance unit latlng,
    distance <> "" /\ unit <> "" /\ latlng <> ""
    /\ ps = [("distance", distance); ("unit", unit); ("latlng", latlng)].
Proof.
  intros Hm. pose proof (match_whole_length _ _ _ Hm) as Hlen.
  destruct segs as [|w [|d [|u [|n [|l [|x segs]]]]]]; try discriminate.
  unfold match_whole in Hm. cbn [match_prefix] in Hm.
  destruct (match_piece (Lit "within") w) as [b1|] eqn:H1; [|discriminate].
  destruct (match_piece (Par "distance") d) as [b2|] eqn:H2; [|discriminate].
  destruct (match_piece (Par "unit") u) as [b3|] eqn:H3; [|discriminate].
  destruct (match_piece (Lit "near") n) as [b4|] eqn:H4; [|discriminate].
  destruct (match_piece (Par "latlng") l) as [b5|] eqn:H5; [|discriminate].
  apply match_piece_lit in H1, H4. apply match_piece_par in H2, H3, H5.
  destruct H1 as [_ ->], H4 as [_ ->], H2 as [Hd ->], H3 as [Hu ->], H5 as [Hl ->].
  cbn in Hm. inversion Hm. exists d, u, l. auto.
Qed.

Lemma distances_route_params (segs : list string) (ps : list (string * string)) :
  match_whole [Lit "distances-from"; Par "latlng"; Lit "unit"; Par "unit"] segs = Some ps ->
  exists latlng unit,
    latlng <> "" /\ unit <> "" /\ ps = [("latlng", latlng); ("unit", unit)].
Proof.
  intros Hm. pose proof (match_whole_length _ _ _ Hm) as Hlen.
  destruct segs as [|w [|l [|n [|u [|x segs]]]]]; try discriminate.
  unfold match_whole in Hm. cbn [match_prefix] in Hm.
  destruct (match_piece (Lit "distances-from") w) as [b1|] eqn:H1; [|discriminate].
  destruct (match_piece (Par "latlng") l) as [b2|] eqn:H2; [|discriminate].
  destruct (match_piece (Lit "unit") n) as [b3|] eqn:H3; [|discriminate].
  destruct (match_piece (Par "unit") u) as [b4|] eqn:H4; [|discriminate].
  apply match_piece_lit in H1, H3. apply match_piece_par in H2, H4.
  destruct H1 as [_ ->], H3 as [_ ->], H2 as [Hl ->], H4 as [Hu ->].
  cbn in Hm. inversion Hm. exists l, u. auto.
Qed.

(** X5.  Whenever the router hands a request to a geo handler, all the
    route parameters the handler destructures are bound to non-empty path
    segments; the handler therefore never fails on a missing [latlng] and
    always issues its one database call, whatever the parameters hold. *)
Theorem routed_geo_requests_reach_the_database `{Externals}
    (m : method) (segs : list string) (fns : list middleware)
    (ps : list (string * string)) (b aq : value) (o : oracle) :
  dispatch router m segs = Some (fns, ps) ->
  (In (controller GetRestaurantsWithin) fns ->
     exists distance unit latlng,
       distance <> "" /\ unit <> "" /\ latlng <> ""
       /\ ps = [("distance", distance); ("unit", unit); ("latlng", latlng)]
       /\ calls (getRestaurantsWithin (routed ps b aq) o)
          = [within_call (Some distance) (Some unit) latlng])
  /\ (In (controller GetDistances) fns ->
     exists latlng unit,
       latlng <> "" /\ unit <> ""
       /\ ps = [("latlng", latlng); ("unit", unit)]
       /\ calls (getDistances (routed ps b aq) o) = [distances_call (Some unit) latlng]).
Proof.
  intros Hd.
  destruct (router_layers m segs fns ps Hd)
    as [Hf|[[Hm [Hf Hw]]|[[Hm [Hf Hw]]|[[Hs [_ [[Hm Hf]|[Hm Hf]]]]|[_ [[Hm Hf]|[[Hm Hf]|[Hm Hf]]]]]]]];
    subst fns; split; intros Hin; cbn in Hin;
    repeat (destruct Hin as [Hin|Hin]; [try discriminate|]); try destruct Hin.
  - destruct (within_route_params segs ps Hw) as [d [u [l [Hd' [Hu [Hl Hps]]]]]].
    exists d, u, l. repeat (split; [assumption|]). subst ps.
    exact (getRestaurantsWithin_calls
             (routed [("distance", d); ("unit", u); ("latlng", l)] b aq) o l eq_refl).
  - destruct (distances_route_params segs ps Hw) as [l [u [Hl [Hu Hps]]]].
    exists l, u. repeat (split; [assumption|]). subst ps.
    exact (getDistances_calls (routed [("latlng", l); ("unit", u)] b aq) o l eq_refl).
Qed.


(* ================================================================== *)
(** * Further properties of the controller *)

Lemma geo_missing_latlng `{Externals} (req : Request) (o : oracle) :
  param req "latlng" = None ->
  calls (getRestaurantsWithin req o) = [] /\ responses (getRestaurantsWithin req o) = []
  /\ calls (getDistances req o) = [] /\ responses (getDistances req o) = [].
Proof.
  intros Hl. unfold getRestaurantsWithin, getDistances, asyncHandler.
  rewrite Hl. cbn. auto.
Qed.

(** X7.  The only calls that change the collection are the ones a handler
    is named for: [create] with the request body in create, the single
    [findByIdAndUpdate] in update, and in delete a [remove] of exactly the
    document its own lookup resolved to.  The six reading handlers make no
    such call, whatever the request and whatever the model layer answers. *)
Theorem handlers_write_only_as_named `{Externals} (a : action) (req : Request)
    (o : oracle) (c : Restaurant.call) :
  In c (calls (handler_of a req o)) ->
  writes c = true ->
  (a = CreateRestaurant /\ c = Restaurant.create (body req))
  \/ (a = UpdateRestaurant /\ c = update_by_id req)
  \/ (a = DeleteRestaurant
      /\ exists d, c = Restaurant.remove d /\ o (by_id req) = Resolved (Some d)).
Proof.
  intros Hin Hw. destruct a; unfold handler_of in Hin.
  - cbn in Hin. destruct Hin.
  - unfold getRestaurant, asyncHandler in Hin. cbn in Hin.
    destruct (o _) as [[d|]|e]; cbn in Hin;
      destruct Hin as [Hin|[]]; subst c; discriminate.
  - left. split; [reflexivity|].
    unfold createRestaurant, asyncHandler in Hin. cbn in Hin.
    destruct (o _) as [d|e]; cbn in Hin; destruct Hin as [Hin|[]]; auto.
  - right. left. split; [reflexivity|].
    unfold updateRestaurant, asyncHandler in Hin. cbn in Hin. unfold update_by_id.
    destruct (o _) as [[d|]|e]; cbn in Hin; destruct Hin as [Hin|[]]; auto.
  - right. right. split; [reflexivity|].
    unfold deleteRestaurant, asyncHandler in Hin. cbn in Hin. unfold by_id.
    destruct (o (Restaurant.findById (param req "id") None)) as [[d|]|e] eqn:Ho;
      cbn in Hin.
    + destruct Hin as [Hin|[Hin|[]]]; subst c; [discriminate|].
      exists d. split; reflexivity.
    + destruct Hin as [Hin|[]]; subst c; discriminate.
    + destruct Hin as [Hin|[]]; subst c; discriminate.
  - destruct (param req "latlng") as [l|] eqn:Hl.
    + rewrite (getRestaurantsWithin_calls req o l Hl) in Hin.
      destruct Hin as [Hin|[]]; subst c; discriminate.
    + destruct (geo_missing_latlng req o Hl) as [Hc _]. rewrite Hc in Hin. destruct Hin.
  - destruct (param req "latlng") as [l|] eqn:Hl.
    + rewrite (getDistances_calls req o l Hl) in Hin.
      destruct Hin as [Hin|[]]; subst c; discriminate.
    + destruct (geo_missing_latlng req o Hl) as [_ [_ [Hc _]]]. rewrite Hc in Hin.
      destruct Hin.
  - unfold getStatsBySuburb, asyncHandler in Hin. cbn in Hin.
    destruct (o _) as [d|e]; cbn in Hin; destruct Hin as [Hin|[]]; subst c; discriminate.
  - unfold getStatsByCuisine, asyncHandler in Hin. cbn in Hin.
    destruct (o _) as [d|e]; cbn in Hin; destruct Hin as [Hin|[]]; subst c; discriminate.
Qed.

(** X8.  Every handler sends at most one response per request; its status
    is 201 in create and 200 in all the others. *)
Theorem at_most_one_response `{Externals} (a : action) (req : Request) (o : oracle) :
  responses (handler_of a req o) = []
  \/ exists b : value,
       responses (handler_of a req o)
       = [((match a with CreateRestaurant => 201 | _ => 200 end)%Z, b)].
Proof.
  destruct a; unfold handler_of.
  - right. eexists. reflexivity.
  - unfold getRestaurant, asyncHandler. cbn.
    destruct (o _) as [[d|]|e]; cbn; [right; eexists; reflexivity | left | left]; reflexivity.
  - unfold createRestaurant, asyncHandler. cbn.
    destruct (o _) as [d|e]; cbn; [right; eexists; reflexivity | left]; reflexivity.
  - unfold updateRestaurant, asyncHandler. cbn.
    destruct (o _) as [[d|]|e]; cbn; [right; eexists; reflexivity | left | left]; reflexivity.
  - unfold deleteRestaurant, asyncHandler. cbn.
    destruct (o _) as [[d|]|e]; cbn; [right; eexists; reflexivity | left | left]; reflexivity.
  - destruct (param req "latlng") as [l|] eqn:Hl.
    + rewrite (getRestaurantsWithin_log req o l Hl).
      destruct (negb (truthy (lat_of l)) || negb (truthy (lng_of l)));
        destruct (strict_neq (param req "unit") "km" && strict_neq (param req "unit") "mi");
        destruct (o _); cbn; (right; eexists; reflexivity) || (left; reflexivity).
    + left. apply (geo_missing_latlng req o Hl).
  - destruct (param req "latlng") as [l|] eqn:Hl.
    + rewrite (getDistances_log req o l Hl).
      destruct (negb (truthy (lat_of l)) || negb (truthy (lng_of l)));
        destruct (strict_neq (param req "unit") "km" && strict_neq (param req "unit") "mi");
        destruct (o _); cbn; (right; eexists; reflexivity) || (left; reflexivity).
    + left. apply (geo_missing_latlng req o Hl).
  - unfold getStatsBySuburb, asyncHandler. cbn.
    destruct (o _) as [d|e]; cbn; [right; eexists; reflexivity | left]; reflexivity.
  - unfold getStatsByCuisine, asyncHandler. cbn.
    destruct (o _) as [d|e]; cbn; [right; eexists; reflexivity | left]; reflexivity.
Qed.

(** X9.  Outside the two geo handlers, forwarding an error and sending a
    response exclude each other: a request is answered either by one call
    of [next] or by one response, never by both. *)
Theorem error_or_response_not_both `{Externals} (a : action) (req : Request) (o : oracle) :
  is_geo a = false ->
  (responses (handler_of a req o) = [] /\ length (forwards (handler_of a req o)) = 1%nat)
  \/ (forwards (handler_of a req o) = [] /\ length (responses (handler_of a req o)) = 1%nat).
Proof.
  intros Hgeo. destruct a; try discriminate Hgeo; unfold handler_of.
  - right. split; reflexivity.
  - unfold getRestaurant, asyncHandler. cbn.
    destruct (o _) as [[d|]|e]; cbn; [right | left | left]; split; reflexivity.
  - unfold createRestaurant, asyncHandler. cbn.
    destruct (o _) as [d|e]; cbn; [right | left]; split; reflexivity.
  - unfold updateRestaurant, asyncHandler. cbn.
    destruct (o _) as [[d|]|e]; cbn; [right | left | left]; split; reflexivity.
  - unfold deleteRestaurant, asyncHandler. cbn.
    destruct (o _) as [[d|]|e]; cbn; [right | left | left]; split; reflexivity.
  - unfold getStatsBySuburb, asyncHandler. cbn.
    destruct (o _) as [d|e]; cbn; [right | left]; split; reflexivity.
  - unfold getStatsByCuisine, asyncHandler. cbn.
    destruct (o _) as [d|e]; cbn; [right | left]; split; reflexivity.
Qed.

(** X10.  In the geo handlers a request is answered both by [next] and by a
    response exactly when a check fails and the database call nevertheless
    resolves. *)
Theorem geo_answers_twice_iff `{Externals} (req : Request) (o : oracle) (latlng : string) :
  param req "latlng" = Some latlng ->
  ((responses (getRestaurantsWithin req o) <> [] /\ forwards (getRestaurantsWithin req o) <> [])
   <-> (fails_validation (param req "unit") latlng = true
        /\ exists restaurants,
             o (within_call (param req "distance") (param req "unit") latlng)
             = Resolved restaurants))
  /\ ((responses (getDistances req o) <> [] /\ forwards (getDistances req o) <> [])
      <-> (fails_validation (param req "unit") latlng = true
           /\ exists distances,
                o (distances_call (param req "unit") latlng) = Resolved distances)).
Proof.
  intros Hl.
  rewrite (getRestaurantsWithin_log req o latlng Hl), (getDistances_log req o latlng Hl).
  unfold fails_validation.
  destruct (negb (truthy (lat_of latlng)) || negb (truthy (lng_of latlng)));
    destruct (strict_neq (param req "unit") "km" && strict_neq (param req "unit") "mi");
    (split;
     [destruct (o (within_call (param req "distance") (param req "unit") latlng))
        as [rs|e] eqn:Ho
     |destruct (o (distances_call (param req "unit") latlng)) as [rs|e] eqn:Ho]);
    cbn; (split;
    [ intros [Hr Hf];
      first [ exfalso; apply Hr; reflexivity
            | exfalso; apply Hf; reflexivity
            | split; [reflexivity | eexists; reflexivity] ]
    | intros [Hv [rs' Hrs]];
      first [ discriminate Hv | discriminate Hrs | split; discriminate ] ]).
Qed.

(** X11.  The radius search does not check that [distance] is a number:
    when the parameter converts to [NaN], a request that passes both checks
    forwards no error and queries the database with a [NaN] radius. *)
Theorem non_numeric_distance_is_queried `{Externals} (req : Request) (o : oracle)
    (latlng : string) :
  param req "latlng" = Some latlng ->
  valid_geo_request (param req "unit") latlng ->
  ToNumber (param req "distance") = NaN ->
  getRestaurantsWithin req o
  = Called (Restaurant.find
              (GeoWithinCenterSphere "location" (js (lng_of latlng), js (lat_of latlng)) NaN))
    :: within_outcome
         (o (Restaurant.find
               (GeoWithinCenterSphere "location" (js (lng_of latlng), js (lat_of latlng)) NaN))).
Proof.
  intros Hl Hvalid Hnan.
  rewrite (getRestaurantsWithin_log req o latlng Hl).
  destruct (valid_geo_request_passes _ _ Hvalid) as [Hpoint Hunit].
  rewrite Hpoint, Hunit. cbn [app].
  unfold within_call.
  assert (Hr : radius_of (param req "unit") (param req "distance") = NaN).
  { unfold radius_of. rewrite Hnan. destruct (strict_eq (param req "unit") "km"); reflexivity. }
  rewrite Hr. reflexivity.
Qed.

(** X12.  The distances endpoint checks that [lat] and [lng] are present,
    not that they are numbers: when [lat] converts to [NaN], a request that
    passes both checks forwards no error and runs the aggregation about a
    point whose latitude is [NaN]. *)
Theorem non_numeric_latitude_is_aggregated `{Externals} (req : Request) (o : oracle)
    (latlng : string) :
  param req "latlng" = Some latlng ->
  valid_geo_request (param req "unit") latlng ->
  ToNumber (lat_of latlng) = NaN ->
  let pipeline :=
    [ GeoNear (VObj [("type", VStr "Point");
                     ("coordinates",
                      VArr [VNum (num_mul (ToNumber (lng_of latlng)) (Num 1)); VNum NaN])])
              "distance" (multiplier_of (param req "unit"));
      Project ["name"; "distance"] ] in
  getDistances req o
  = Called (Restaurant.aggregate pipeline)
    :: distances_outcome (o (Restaurant.aggregate pipeline)).
Proof.
  intros Hl Hvalid Hnan pipeline.
  rewrite (getDistances_log req o latlng Hl).
  destruct (valid_geo_request_passes _ _ Hvalid) as [Hpoint Hunit].
  rewrite Hpoint, Hunit. cbn [app].
  unfold distances_call, near_point, pipeline. rewrite Hnan. reflexivity.
Qed.


(** X14.  The distances endpoint treats a unit that is neither ['km'] nor
    ['mi'] as miles: after forwarding the 400 for the unit it runs exactly
    the aggregation of the same request with unit ['mi'], and apart from
    that forwarded error the two requests produce the same events. *)
Theorem distances_unknown_unit_as_miles `{Externals} (req : Request) (o : oracle)
    (latlng : string) :
  param req "latlng" = Some latlng ->
  strict_neq (param req "unit") "km" = true ->
  strict_neq (param req "unit") "mi" = true ->
  multiplier_of (param req "unit") = Num 0.000621371
  /\ exists pre rest,
       getDistances req o = pre ++ Forwarded (AppError unit_message 400) :: rest
       /\ getDistances (with_unit "mi" req) o = pre ++ rest
       /\ In (Called (distances_call (Some "mi") latlng)) rest.
Proof.
  intros Hl Hkm Hmi.
  assert (Hmult : multiplier_of (param req "unit") = Num 0.000621371).
  { unfold multiplier_of. unfold strict_neq in Hkm.
    destruct (strict_eq (param req "unit") "km"); [discriminate | reflexivity]. }
  split; [exact Hmult|].
  assert (Hl' : param (with_unit "mi" req) "latlng" = Some latlng) by exact Hl.
  rewrite (getDistances_log req o latlng Hl).
  rewrite (getDistances_log (with_unit "mi" req) o latlng Hl').
  change (param (with_unit "mi" req) "unit") with (Some "mi").
  assert (Hmiles : multiplier_of (Some "mi") = Num 0.000621371) by reflexivity.
  unfold distances_call. rewrite Hmult, Hmiles, Hkm, Hmi. cbn [andb].
  exists (if negb (truthy (lat_of latlng)) || negb (truthy (lng_of latlng))
          then [Forwarded (AppError latlng_message 400)] else []).
  eexists.
  split; [reflexivity|]. split; [reflexivity|]. left. reflexivity.
Qed.

(* ================================================================== *)
(** * The ["lat,lng"] pair *)

Lemma split_not_nil (sep : ascii) (s : string) : split sep s <> [].
Proof.
  destruct s as [|c s]; cbn; [discriminate|].
  destruct (Ascii.eqb c sep); [discriminate|].
  destruct (split sep s); discriminate.
Qed.

Lemma concat_cons (sep x y : string) (ys : list string) :
  String.concat sep (x :: y :: ys) = (x ++ sep ++ String.concat sep (y :: ys))%string.
Proof. reflexivity. Qed.

(** Splitting loses nothing: joining the parts of [s.split(',')] with a
    comma gives [s] back, and no part contains a comma. *)
Theorem split_join_round_trip (s : string) :
  String.concat "," (split "," s) = s
  /\ Forall (fun part => comma_free part = true) (split "," s).
Proof.
  induction s as [|c s [IHjoin IHfree]].
  - split; [reflexivity|]. repeat constructor.
  - cbn [split]. destruct (Ascii.eqb c ",") eqn:Hc.
    + apply Ascii.eqb_eq in Hc. subst c. split.
      * destruct (split "," s) as [|x xs] eqn:Hs; [destruct (split_not_nil _ _ Hs)|].
        rewrite concat_cons, IHjoin. reflexivity.
      * constructor; [reflexivity | exact IHfree].
    + destruct (split "," s) as [|x xs] eqn:Hs; [destruct (split_not_nil _ _ Hs)|].
      inversion IHfree as [|x' xs' Hx Hxs]; subst x' xs'. split.
      * destruct xs as [|y ys].
        -- cbn in IHjoin. cbn. rewrite IHjoin. reflexivity.
        -- rewrite concat_cons in IHjoin |- *. rewrite <- IHjoin. reflexivity.
      * constructor; [|exact Hxs]. cbn. rewrite Hc, Hx. reflexivity.
Qed.

Lemma split_comma_free (s : string) : comma_free s = true -> split "," s = [s].
Proof.
  induction s as [|c s IH]; cbn; [reflexivity|].
  destruct (Ascii.eqb c ","); cbn; [discriminate|].
  intros Hs. rewrite (IH Hs). reflexivity.
Qed.

Lemma split_first_part (a rest : string) :
  comma_free a = true -> split "," (a ++ "," ++ rest) = a :: split "," rest.
Proof.
  induction a as [|c a IH]; cbn; [reflexivity|].
  destruct (Ascii.eqb c ","); cbn; [discriminate|].
  intros Ha. cbn in IH. rewrite (IH Ha). reflexivity.
Qed.

(** X15.  Which strings give which pair: [lat] is [a] and [lng] is [b]
    exactly when neither contains a comma and [latlng] is ["a,b"] or
    ["a,b,"] followed by anything; whatever comes after a second comma is
    ignored. *)
Theorem lat_lng_of_shape (latlng a b : string) :
  (lat_of latlng = Some a /\ lng_of latlng = Some b)
  <-> (comma_free a = true /\ comma_free b = true
       /\ (latlng = (a ++ "," ++ b)%string
           \/ exists tail, latlng = (a ++ "," ++ b ++ "," ++ tail)%string)).
Proof.
  unfold lat_of, lng_of. split.
  - intros [Hlat Hlng].
    destruct (split_join_round_trip latlng) as [Hjoin Hfree].
    destruct (split "," latlng) as [|x [|y rest]]; cbn in Hlat, Hlng; try discriminate.
    inversion Hlat; inversion Hlng; subst x y.
    inversion Hfree as [|x xs Ha Hrest]; subst x xs.
    inversion Hrest as [|y ys Hb _]; subst y ys.
    split; [exact Ha|]. split; [exact Hb|].
    destruct rest as [|z zs].
    + left. symmetry. exact Hjoin.
    + right. exists (String.concat "," (z :: zs)). symmetry. exact Hjoin.
  - intros [Ha [Hb [Hs|[tail Hs]]]]; subst latlng; rewrite (split_first_part a _ Ha).
    + rewrite (split_comma_free b Hb). split; reflexivity.
    + rewrite (split_first_part b _ Hb). split; reflexivity.
Qed.

(* ================================================================== *)
(** * Totals of the statistics *)

Lemma keyed_length `{Externals} (kx : keyExpr) (docs : list doc) (kds : list (string * doc)) :
  Engine.keyed kx docs = Resolved kds -> length kds = length docs.
Proof.
  revert kds. induction docs as [|d docs IH]; cbn; intros kds Hk.
  - inversion Hk. reflexivity.
  - destruct (Engine.eval_key kx d) as [k|e]; [|discriminate].
    destruct (Engine.keyed kx docs) as [rest|e]; [|discriminate].
    inversion Hk. cbn. f_equal. apply IH. reflexivity.
Qed.

Lemma list_sum_cons (n : nat) (l : list nat) : list_sum (n :: l) = (n + list_sum l)%nat.
Proof. reflexivity. Qed.

Lemma add_to_group_total (key : string) (d : doc) (gs : list (string * list doc)) :
  list_sum (map (fun g => length (snd g)) (Engine.add_to_group key d gs))
  = S (list_sum (map (fun g => length (snd g)) gs)).
Proof.
  induction gs as [|[k ds] gs IH]; [reflexivity|].
  cbn [Engine.add_to_group]. destruct (String.eqb k key);
    cbn [map snd]; rewrite !list_sum_cons.
  - rewrite length_app. cbn [length]. lia.
  - rewrite IH. lia.
Qed.

Lemma group_by_total (kds : list (string * doc)) :
  list_sum (map (fun g => length (snd g)) (Engine.group_by kds)) = length kds.
Proof.
  induction kds as [|[key d] kds IH] using rev_ind; [reflexivity|].
  unfold Engine.group_by. rewrite fold_left_app. cbn [fold_left fst snd].
  rewrite add_to_group_total. fold (Engine.group_by kds). rewrite IH.
  rewrite length_app. cbn. lia.
Qed.

Lemma as_count_group_row (g : string * list doc) :
  as_count (field "numRestaurants" (Engine.group_row stats_accumulators g))
  = length (snd g).
Proof.
  destruct (count_of_ones (snd g)) as [count [Hsum Hcount]].
  unfold Engine.group_row, stats_accumulators.
  cbn [map fst snd Engine.eval_acc field String.eqb Ascii.eqb Bool.eqb].
  rewrite Hsum. cbn [as_count]. rewrite Hcount, Qfloor_Z. apply Nat2Z.id.
Qed.

Lemma list_sum_perm (l l' : list nat) : Permutation l l' -> list_sum l = list_sum l'.
Proof. induction 1; rewrite ?list_sum_cons; lia. Qed.

Lemma group_then_sort_total `{Externals} (kx : keyExpr) (docs rows : list doc) :
  Engine.group kx stats_accumulators docs = Resolved rows ->
  total_count (Engine.sort_by (Engine.sort_le stats_sort) rows) = length docs.
Proof.
  unfold Engine.group. destruct (Engine.keyed kx docs) as [kds|e] eqn:Hk; [|discriminate].
  intros Hrows. inversion Hrows; subst rows. clear Hrows.
  unfold total_count.
  rewrite <- (list_sum_perm _ _
                (Permutation_map _ (sort_by_perm (Engine.sort_le stats_sort) _))).
  rewrite map_map.
  rewrite (map_ext _ (fun g => length (snd g))) by apply as_count_group_row.
  rewrite group_by_total. apply (keyed_length kx docs kds Hk).
Qed.

(** X16.  The restaurant counts of a statistics table add up: over the
    suburb table to the size of the collection, over the cuisine table to
    the number of unwound rows, which is at least the size of the collection
    when every restaurant has a non-empty cuisine array. *)
Theorem statistics_counts_add_up `{Externals} (coll : list doc) :
  (forall stats,
      Engine.aggregate suburb_pipeline coll = Resolved stats ->
      total_count stats = length coll)
  /\ (forall stats,
      Engine.aggregate cuisine_pipeline coll = Resolved stats ->
      total_count stats = length (flat_map (Engine.unwind "cuisine") coll)
      /\ (Forall (fun d => exists tag tags, field "cuisine" d = Some (VArr (tag :: tags))) coll ->
          (length coll <= total_count stats)%nat)).
Proof.
  split.
  - intros stats Hstats. unfold suburb_pipeline in Hstats. cbn in Hstats.
    destruct (Engine.group (ToUpper "suburb") stats_accumulators coll) as [rows|e] eqn:Hg;
      [|discriminate].
    inversion Hstats; subst stats. apply (group_then_sort_total _ _ _ Hg).
  - intros stats Hstats. unfold cuisine_pipeline in Hstats. cbn in Hstats.
    destruct (Engine.group (ToUpper "cuisine") stats_accumulators
                (flat_map (Engine.unwind "cuisine") coll)) as [rows|e] eqn:Hg;
      [|discriminate].
    inversion Hstats; subst stats.
    rewrite (group_then_sort_total _ _ _ Hg). split; [reflexivity|].
    intros Htags. clear Hg Hstats. induction Htags as [|d ds [tag [tags Hd]] _ IH].
    + cbn. lia.
    + cbn [flat_map]. rewrite length_app. unfold Engine.unwind at 1. rewrite Hd.
      cbn [map length]. cbn [length] in *. lia.
Qed.

(* ================================================================== *)
(** * The further properties at concrete requests *)

Lemma mutating_routes_guarded_witness :
  let chain := [protect; restrictTo ["owner"; "admin"]; controller DeleteRestaurant] in
  dispatch router DELETE ["r2"] = Some (chain, [("id", "r2")])
  /\ In (controller DeleteRestaurant) chain
  /\ mutating DeleteRestaurant = true
  /\ ((DeleteRestaurant = CreateRestaurant /\ DELETE = POST /\ ["r2"] = []
       /\ chain = [protect; restrictTo ["staff"; "owner"; "admin"]; controller CreateRestaurant])
      \/ (DeleteRestaurant = UpdateRestaurant /\ DELETE = PATCH
          /\ chain = [protect; restrictTo ["staff"; "owner"; "admin"];
                      controller UpdateRestaurant])
      \/ (DeleteRestaurant = DeleteRestaurant /\ DELETE = DELETE
          /\ chain = [protect; restrictTo ["owner"; "admin"]; controller DeleteRestaurant])).
Proof.
  cbv zeta. split; [reflexivity|]. split; [right; right; left; reflexivity|].
  split; [reflexivity|].
  apply (mutating_routes_guarded DELETE ["r2"] _ [("id", "r2")] DeleteRestaurant).
  - reflexivity.
  - right. right. left. reflexivity.
  - reflexivity.
Defined.




Lemma routed_geo_requests_reach_the_database_witness :
  let o := Sample.model Sample.collection in
  let within_ps := [("distance", "ten"); ("unit", "km"); ("latlng", "here")] in
  let distances_ps := [("latlng", "here"); ("unit", "furlong")] in
  (dispatch router GET ["within"; "ten"; "km"; "near"; "here"]
   = Some ([controller GetRestaurantsWithin], within_ps)
   /\ In (controller GetRestaurantsWithin) [controller GetRestaurantsWithin]
   /\ exists distance unit latlng,
        distance <> "" /\ unit <> "" /\ latlng <> ""
        /\ within_ps = [("distance", distance); ("unit", unit); ("latlng", latlng)]
        /\ calls (@getRestaurantsWithin Sample.externals (routed within_ps VNull VNull) o)
           = [@within_call Sample.externals (Some distance) (Some unit) latlng])
  /\ (dispatch router GET ["distances-from"; "here"; "unit"; "furlong"]
      = Some ([controller GetDistances], distances_ps)
      /\ In (controller GetDistances) [controller GetDistances]
      /\ exists latlng unit,
           latlng <> "" /\ unit <> ""
           /\ distances_ps = [("latlng", latlng); ("unit", unit)]
           /\ calls (@getDistances Sample.externals (routed distances_ps VNull VNull) o)
              = [@distances_call Sample.externals (Some unit) latlng]).
Proof.
  cbv zeta. split.
  - split; [reflexivity|]. split; [left; reflexivity|].
    apply (proj1 (@routed_geo_requests_reach_the_database Sample.externals
             GET ["within"; "ten"; "km"; "near"; "here"]
             [controller GetRestaurantsWithin]
             [("distance", "ten"); ("unit", "km"); ("latlng", "here")] VNull VNull
             (Sample.model Sample.collection) eq_refl)).
    left. reflexivity.
  - split; [reflexivity|]. split; [left; reflexivity|].
    apply (proj2 (@routed_geo_requests_reach_the_database Sample.externals
             GET ["distances-from"; "here"; "unit"; "furlong"]
             [controller GetDistances]
             [("latlng", "here"); ("unit", "furlong")] VNull VNull
             (Sample.model Sample.collection) eq_refl)).
    left. reflexivity.
Defined.


Lemma handlers_write_only_as_named_witness :
  let o := Sample.model Sample.collection in
  let req := Sample.request [("id", "r2")] in
  let wharf := Sample.restaurant "r2" "Wharf Bar" "Manly" ["Seafood"] 151 (-31) 4 7 in
  In (Restaurant.remove wharf) (calls (@handler_of Sample.externals DeleteRestaurant req o))
  /\ writes (Restaurant.remove wharf) = true
  /\ ((DeleteRestaurant = CreateRestaurant
       /\ Restaurant.remove wharf = Restaurant.create (body req))
      \/ (DeleteRestaurant = UpdateRestaurant /\ Restaurant.remove wharf = update_by_id req)
      \/ (DeleteRestaurant = DeleteRestaurant
          /\ exists d, Restaurant.remove wharf = Restaurant.remove d
                       /\ o (by_id req) = Resolved (Some d))).
Proof.
  cbv zeta. split; [right; left; reflexivity|]. split; [reflexivity|].
  apply (@handlers_write_only_as_named Sample.externals DeleteRestaurant
           (Sample.request [("id", "r2")]) (Sample.model Sample.collection)).
  - right. left. reflexivity.
  - reflexivity.
Defined.

Lemma error_or_response_not_both_witness :
  let o := Sample.model Sample.collection in
  let req := Sample.request [("id", "r9")] in
  is_geo DeleteRestaurant = false
  /\ ((responses (@handler_of Sample.externals DeleteRestaurant req o) = []
       /\ length (forwards (@handler_of Sample.externals DeleteRestaurant req o)) = 1%nat)
      \/ (forwards (@handler_of Sample.externals DeleteRestaurant req o) = []
          /\ length (responses (@handler_of Sample.externals DeleteRestaurant req o)) = 1%nat)).
Proof.
  cbv zeta. split; [reflexivity|].
  apply (@error_or_response_not_both Sample.externals DeleteRestaurant
           (Sample.request [("id", "r9")]) (Sample.model Sample.collection)).
  reflexivity.
Defined.

Lemma geo_answers_twice_iff_witness :
  let o := Sample.model Sample.collection in
  let req := Sample.request [("distance", "10"); ("unit", "furlong"); ("latlng", "-33,151")] in
  param req "latlng" = Some "-33,151"
  /\ fails_validation (param req "unit") "-33,151" = true
  /\ (exists restaurants,
        o (@within_call Sample.externals (param req "distance") (param req "unit") "-33,151")
        = Resolved restaurants)
  /\ responses (@getRestaurantsWithin Sample.externals req o) <> []
  /\ forwards (@getRestaurantsWithin Sample.externals req o) <> [].
Proof.
  cbv zeta. split; [reflexivity|]. split; [reflexivity|].
  split; [eexists; reflexivity|].
  apply (proj1 (@geo_answers_twice_iff Sample.externals
           (Sample.request [("distance", "10"); ("unit", "furlong"); ("latlng", "-33,151")])
           (Sample.model Sample.collection) "-33,151" eq_refl)).
  split; [reflexivity | eexists; reflexivity].
Defined.

Lemma non_numeric_distance_is_queried_witness :
  let o := Sample.model Sample.collection in
  let req := Sample.request [("distance", "far"); ("unit", "km"); ("latlng", "-33,151")] in
  let query := Restaurant.find
                 (GeoWithinCenterSphere "location" (VStr "151", VStr "-33") NaN) in
  param req "latlng" = Some "-33,151"
  /\ valid_geo_request (param req "unit") "-33,151"
  /\ @ToNumber Sample.externals (param req "distance") = NaN
  /\ @getRestaurantsWithin Sample.externals req o = Called query :: within_outcome (o query).
Proof.
  cbv zeta.
  assert (Hvalid : valid_geo_request (Some "km") "-33,151").
  { split; [reflexivity|]. split; [reflexivity|]. left. reflexivity. }
  split; [reflexivity|]. split; [exact Hvalid|]. split; [reflexivity|].
  apply (@non_numeric_distance_is_queried Sample.externals
           (Sample.request [("distance", "far"); ("unit", "km"); ("latlng", "-33,151")])
           (Sample.model Sample.collection) "-33,151" eq_refl Hvalid eq_refl).
Defined.

Lemma non_numeric_latitude_is_aggregated_witness :
  let o := Sample.model Sample.collection in
  let req := Sample.request [("latlng", "south,151"); ("unit", "km")] in
  let pipeline :=
    [ GeoNear (VObj [("type", VStr "Point");
                     ("coordinates", VArr [VNum (Num (151 * 1)); VNum NaN])])
              "distance" (Num 0.001);
      Project ["name"; "distance"] ] in
  param req "latlng" = Some "south,151"
  /\ valid_geo_request (param req "unit") "south,151"
  /\ @ToNumber Sample.externals (lat_of "south,151") = NaN
  /\ @getDistances Sample.externals req o
     = Called (Restaurant.aggregate pipeline)
       :: distances_outcome (o (Restaurant.aggregate pipeline)).
Proof.
  cbv zeta.
  assert (Hvalid : valid_geo_request (Some "km") "south,151").
  { split; [reflexivity|]. split; [reflexivity|]. left. reflexivity. }
  split; [reflexivity|]. split; [exact Hvalid|]. split; [reflexivity|].
  apply (@non_numeric_latitude_is_aggregated Sample.externals
           (Sample.request [("latlng", "south,151"); ("unit", "km")])
           (Sample.model Sample.collection) "south,151" eq_refl Hvalid eq_refl).
Defined.


Lemma distances_unknown_unit_as_miles_witness :
  let o := Sample.model Sample.collection in
  let req := Sample.request [("latlng", "-33,151"); ("unit", "furlong")] in
  param req "latlng" = Some "-33,151"
  /\ strict_neq (param req "unit") "km" = true
  /\ strict_neq (param req "unit") "mi" = true
  /\ multiplier_of (param req "unit") = Num 0.000621371
  /\ exists pre rest,
       @getDistances Sample.externals req o
       = pre ++ Forwarded (AppError unit_message 400) :: rest
       /\ @getDistances Sample.externals (with_unit "mi" req) o = pre ++ rest
       /\ In (Called (@distances_call Sample.externals (Some "mi") "-33,151")) rest.
Proof.
  cbv zeta. split; [reflexivity|]. split; [reflexivity|]. split; [reflexivity|].
  apply (@distances_unknown_unit_as_miles Sample.externals
           (Sample.request [("latlng", "-33,151"); ("unit", "furlong")])
           (Sample.model Sample.collection) "-33,151"); reflexivity.
Defined.

(** A third component is ignored; a pair with an empty half is still a
    pair. *)
Lemma lat_lng_of_shape_witness :
  (comma_free "-33" = true /\ comma_free "151" = true
   /\ lat_of "-33,151,7,8" = Some "-33" /\ lng_of "-33,151,7,8" = Some "151")
  /\ (lat_of "-33," = Some "-33" /\ lng_of "-33," = Some ""
      /\ comma_free "-33" = true /\ comma_free "" = true).
Proof.
  split.
  - split; [reflexivity|]. split; [reflexivity|].
    apply (proj2 (lat_lng_of_shape "-33,151,7,8" "-33" "151")).
    split; [reflexivity|]. split; [reflexivity|]. right. exists "7,8". reflexivity.
  - assert (Hpair : lat_of "-33," = Some "-33" /\ lng_of "-33," = Some "")
      by (split; reflexivity).
    split; [apply Hpair|]. split; [apply Hpair|].
    destruct (proj1 (lat_lng_of_shape "-33," "-33" "") Hpair) as [Ha [Hb _]].
    split; assumption.
Defined.

Lemma statistics_counts_add_up_witness :
  let by_suburb : list doc :=
    [ [("_id", VStr "BONDI"); ("numRestaurants", VNum (Num 3));
       ("numRatings", VNum (Num 15)); ("avgRating", VNum (Num (1300 # 300)))];
      [("_id", VStr "MANLY"); ("numRestaurants", VNum (Num 1));
       ("numRatings", VNum (Num 7)); ("avgRating", VNum (Num 4))] ] in
  let by_cuisine : list doc :=
    [ [("_id", VStr "SEAFOOD"); ("numRestaurants", VNum (Num 2));
       ("numRatings", VNum (Num 17)); ("avgRating", VNum (Num (85 # 20)))];
      [("_id", VStr "CAFE"); ("numRestaurants", VNum (Num 2));
       ("numRatings", VNum (Num 5)); ("avgRating", VNum (Num (85 # 20)))];
      [("_id", VStr "ITALIAN"); ("numRestaurants", VNum (Num 1));
       ("numRatings", VNum (Num 10)); ("avgRating", VNum (Num 4.5))];
      [("_id", VStr "DELI"); ("numRestaurants", VNum (Num 1));
       ("numRatings", VNum (Num 1)); ("avgRating", VNum (Num 5))] ] in
  (@Engine.aggregate Sample.externals suburb_pipeline Sample.collection = Resolved by_suburb
   /\ total_count by_suburb = length Sample.collection)
  /\ (@Engine.aggregate Sample.externals cuisine_pipeline Sample.collection = Resolved by_cuisine
      /\ Forall (fun d => exists tag tags, field "cuisine" d = Some (VArr (tag :: tags)))
           Sample.collection
      /\ total_count by_cuisine = length (flat_map (Engine.unwind "cuisine") Sample.collection)
      /\ (length Sample.collection <= total_count by_cuisine)%nat).
Proof.
  cbv zeta.
  destruct (@statistics_counts_add_up Sample.externals Sample.collection)
    as [Hsuburb Hcuisine].
  assert (Htags : Forall (fun d => exists tag tags, field "cuisine" d = Some (VArr (tag :: tags)))
                    Sample.collection).
  { repeat constructor; eexists; eexists; reflexivity. }
  split.
  - split; [reflexivity|]. apply Hsuburb. reflexivity.
  - split; [reflexivity|]. split; [exact Htags|].
    destruct (Hcuisine _ eq_refl) as [Htotal Hmore].
    split; [exact Htotal | exact (Hmore Htags)].
Defined.
